(** * IndiePilot: skill graph, scenario scoring and the Autonomy Index

    A shallow embedding of [src/indiegraph.py], [src/sim.py],
    [src/budget.py], [src/autonomy.py] and the part of [src/db.py] they
    read, followed by the properties established about them.

    Conventions of the embedding:
    - a Python [str] is a [string], a [Set[str]] a [gset string], a [dict]
      with string keys a [gmap string _] (or an association list where the
      iteration order is observable);
    - a Python [int] is a [Z]; a Python [float] is an IEEE 754 binary64
      value, Rocq's primitive [float], so that [+], [-], [*], [/], [<] and
      [abs] round exactly as CPython's do; where the source mixes an
      [int] with a [float] the [int] is converted first, as CPython does
      (the integers involved are small, so the conversion is exact);
    - the results of the SQL queries are fields of a [Storage] record: the
      SQL engine is not part of the repository;
    - a Python exception is the left injection of a sum. *)

From Stdlib Require Import ZArith List Bool Sorted Lia.
From Stdlib Require Import Floats.PrimFloat Floats.SpecFloat Floats.FloatOps Floats.FloatAxioms.
From stdpp Require Import base decidable option list gmap strings pretty.

Set Warnings "-inexact-float".
Local Open Scope string_scope.
Local Open Scope Z_scope.

(* ===================================================================== *)
(** * Python built-ins used by the sources *)
(* ===================================================================== *)

Module Py.

(** The exceptions that the modelled code can raise. *)
Inductive exn := KeyError | ValueError | OverflowError | ZeroDivisionError.

Definition result (A : Type) : Type := exn + A.

Definition ret {A} (a : A) : result A := inr a.
Definition raise {A} (e : exn) : result A := inl e.
Definition bind {A B} (m : result A) (k : A -> result B) : result B :=
  match m with inl e => inl e | inr a => k a end.

(** [float(z)] for an [int] [z]: the nearest binary64 value, ties to
    even.  (CPython raises [OverflowError] beyond the binary64 range;
    no integer of that size occurs in the modelled code.) *)
Definition float_of_Z (z : Z) : float :=
  SF2Prim (binary_normalize prec emax z 0 false).

(** [min(a, b)] and [max(a, b)] keep their first argument unless the
    second compares strictly smaller (larger): so does CPython, which
    matters when an argument is a NaN. *)
Definition min (a b : float) : float := if PrimFloat.ltb b a then b else a.
Definition max (a b : float) : float := if PrimFloat.ltb a b then b else a.

(** The integer nearest to [m * 2^e], ties to even ([m >= 0]). *)
Definition round_half_even (m e : Z) : Z :=
  if 0 <=? e then m * 2 ^ e
  else
    let d := 2 ^ (- e) in
    let q := m / d in
    let r := m mod d in
    match 2 * r ?= d with
    | Lt => q
    | Gt => q + 1
    | Eq => if Z.even q then q else q + 1
    end.

(** [round(x)] of a float: an [int], ties to even; [ValueError] on a
    NaN and [OverflowError] on an infinity. *)
Definition round (x : float) : result Z :=
  match Prim2SF x with
  | S754_zero _ => ret 0
  | S754_nan => raise ValueError
  | S754_infinity _ => raise OverflowError
  | S754_finite s m e =>
      let n := round_half_even (Zpos m) e in
      ret (if s then - n else n)
  end.

(** The binary64 value nearest to [n / d] for integers [n >= 0] and
    [d > 0] (the quotient is rounded once). *)
Definition nearest_quotient (sign : bool) (n d : Z) : float :=
  let '(q, e, l) := SFdiv_core_binary prec emax n 0 d 0 in
  SF2Prim (binary_round_aux prec emax sign q e l).

(** [round(x, 1)]: [x] is rounded to one decimal place on its exact
    value, ties to even, and the decimal result is converted back to
    the nearest float; zeros, infinities and NaNs are returned
    unchanged. *)
Definition round1 (x : float) : float :=
  match Prim2SF x with
  | S754_finite s m e =>
      if 0 <=? e then x
      else nearest_quotient s (round_half_even (Zpos m * 10) e) 10
  | _ => x
  end.

(** [a / b] on two [int]s: the float nearest to the exact quotient. *)
Definition truediv (a b : Z) : result float :=
  if b =? 0 then raise ZeroDivisionError
  else ret (nearest_quotient (xorb (a <? 0) (b <? 0)) (Z.abs a) (Z.abs b)).

(** [l[:limit]], where a negative [limit] counts from the end. *)
Definition slice_to {A} (l : list A) (limit : Z) : list A :=
  if 0 <=? limit then take (Z.to_nat limit) l
  else take (Z.to_nat (Z.of_nat (length l) + limit)) l.

(** [sorted(l, key=key, reverse=True)]: a stable sort, so that equal
    keys stay in their original order. *)
Fixpoint insert_desc {A} (key : A -> Z) (x : A) (l : list A) : list A :=
  match l with
  | [] => [x]
  | y :: l' =>
      if key y <=? key x then x :: l else y :: insert_desc key x l'
  end.

Definition sort_desc {A} (key : A -> Z) (l : list A) : list A :=
  foldr (insert_desc key) [] l.

End Py.

Notation "'let*' x ':=' m 'in' k" := (Py.bind m (fun x => k))
  (at level 10, x pattern, m at level 100, k at level 200).

(* ===================================================================== *)
(** * External storage (the queries of [src/db.py]) *)
(* ===================================================================== *)

Module Db.

(** A row of [user_settings]. *)
Record Settings := {
  spend_ratio : float;
  save_ratio : float;
  share_ratio : float;
  skills_weight : float;
  budgeting_weight : float;
  community_weight : float;
  judgment_weight : float
}.

(** What the storage answers to each query of the modelled code, and
    the date of the wall clock.  Every field is the list of rows (or of
    the one selected column) that [safe_query] returns for the user
    given as parameter; [user_settings] is the table itself, because
    [get_user_settings] also writes to it. *)
Record Storage := {
  (* SELECT q.id FROM quest_progress qp JOIN quest q ... completed *)
  completed_quest_ids : string -> list string;
  (* SELECT COUNT( * ) FROM quest_progress WHERE ... completed *)
  completed_quest_count : string -> list Z;
  (* SELECT COALESCE(SUM(amount), 0) FROM budget_log WHERE user, jar *)
  jar_sum : string -> string -> list float;
  (* SELECT DISTINCT DATE(ts) ... ORDER BY log_date DESC, as day numbers *)
  log_dates : string -> list Z;
  (* SELECT COUNT( * ) FROM board_post WHERE user_id = ? *)
  board_post_count : string -> list Z;
  (* SELECT COUNT( * ) FROM board_claim WHERE user_id = ? *)
  board_claim_count : string -> list Z;
  (* SELECT score FROM sim_run ... ORDER BY ran_at DESC LIMIT 5 *)
  recent_sim_scores : string -> list Z;
  (* the table user_settings, keyed by user_id *)
  user_settings : gmap string Settings;
  (* datetime.now().date(), as a day number *)
  today : Z
}.

Definition with_user_settings (db : Storage) (t : gmap string Settings) : Storage :=
  {| completed_quest_ids := completed_quest_ids db;
     completed_quest_count := completed_quest_count db;
     jar_sum := jar_sum db;
     log_dates := log_dates db;
     board_post_count := board_post_count db;
     board_claim_count := board_claim_count db;
     recent_sim_scores := recent_sim_scores db;
     user_settings := t;
     today := today db |}.

(** The row that [get_user_settings] inserts for a user without one. *)
Definition default_settings : Settings :=
  {| spend_ratio := 60.0; save_ratio := 30.0; share_ratio := 10.0;
     skills_weight := 0.30; budgeting_weight := 0.30;
     community_weight := 0.15; judgment_weight := 0.25 |}.

(** [get_user_settings]: the stored row, or the defaults, which are then
    also stored. *)
Definition get_user_settings (db : Storage) (user_id : string) : Settings * Storage :=
  match user_settings db !! user_id with
  | None =>
      (default_settings,
       with_user_settings db (<[user_id := default_settings]> (user_settings db)))
  | Some s => (s, db)
  end.

(** ** Sample storages *)

(** A storage in which no user has done anything yet. *)
Definition fresh_storage : Storage :=
  {| completed_quest_ids := fun _ => [];
     completed_quest_count := fun _ => [0];
     jar_sum := fun _ _ => [0.0%float];
     log_dates := fun _ => [];
     board_post_count := fun _ => [0];
     board_claim_count := fun _ => [0];
     recent_sim_scores := fun _ => [];
     user_settings := ∅;
     today := 739000 |}.

(** A storage with money in the three jars and a two-day streak. *)
Definition saver_storage : Storage :=
  {| completed_quest_ids := fun _ => ["quest_laundry"];
     completed_quest_count := fun _ => [1];
     jar_sum := fun _ jar =>
       if bool_decide (jar = "spend") then [60.0%float]
       else if bool_decide (jar = "save") then [30.0%float]
       else [10.0%float];
     log_dates := fun _ => [739000; 738999];
     board_post_count := fun _ => [2];
     board_claim_count := fun _ => [1];
     recent_sim_scores := fun _ => [80; 71];
     user_settings := ∅;
     today := 739000 |}.

(** ** [update_user_settings] *)

(** [valid_fields] *)
Definition valid_fields : list string :=
  ["spend_ratio"; "save_ratio"; "share_ratio";
   "skills_weight"; "budgeting_weight"; "community_weight"; "judgment_weight"].


(** [SET field = value] on one row. *)
Definition set_field (field : string) (value : float) (s : Settings) : Settings :=
  {| spend_ratio := if bool_decide (field = "spend_ratio") then value else spend_ratio s;
     save_ratio := if bool_decide (field = "save_ratio") then value else save_ratio s;
     share_ratio := if bool_decide (field = "share_ratio") then value else share_ratio s;
     skills_weight := if bool_decide (field = "skills_weight") then value else skills_weight s;
     budgeting_weight :=
       if bool_decide (field = "budgeting_weight") then value else budgeting_weight s;
     community_weight :=
       if bool_decide (field = "community_weight") then value else community_weight s;
     judgment_weight :=
       if bool_decide (field = "judgment_weight") then value else judgment_weight s |}.

(** The pairs of [kwargs] whose key is a valid field: the lists
    [updates] and [params] of the source, zipped. *)
Definition valid_updates (kwargs : list (string * float)) : list (string * float) :=
  filter (fun kv => kv.1 ∈ valid_fields) kwargs.

(** [update_user_settings(user_id, **kwargs)]: [kwargs] as the list of
    its items (a dictionary, so its keys differ).  The [UPDATE] changes
    the row of the user when there is one; the result tells whether a
    row was changed. *)
Definition update_user_settings (db : Storage) (user_id : string)
    (kwargs : list (string * float)) : bool * Storage :=
  match valid_updates kwargs with
  | [] => (false, db)
  | updates =>
      match user_settings db !! user_id with
      | None => (false, db)
      | Some row =>
          (true,
           with_user_settings db
             (<[user_id := foldl (fun s kv => set_field kv.1 kv.2 s) row updates]>
                (user_settings db)))
      end
  end.

(** The answers to the queries that only [get_user_badges] and
    [get_next_milestones] make. *)
Record Counts := {
  (* SELECT COUNT( * ) FROM budget_log WHERE user_id = ? *)
  budget_log_count : string -> list Z;
  (* SELECT COUNT( * ) FROM sim_run WHERE user_id = ? *)
  sim_run_count : string -> list Z
}.

Definition saver_counts : Counts :=
  {| budget_log_count := fun _ => [7]; sim_run_count := fun _ => [2] |}.

(** The storage of [saver_storage] two days later, with one more logged
    day: the latest log is of the day before the clock's. *)
Definition lapsed_storage : Storage :=
  {| completed_quest_ids := completed_quest_ids saver_storage;
     completed_quest_count := completed_quest_count saver_storage;
     jar_sum := jar_sum saver_storage;
     log_dates := fun _ => [739001; 739000; 738999];
     board_post_count := board_post_count saver_storage;
     board_claim_count := board_claim_count saver_storage;
     recent_sim_scores := recent_sim_scores saver_storage;
     user_settings := ∅;
     today := 739002 |}.

End Db.

(* ===================================================================== *)
(** * The skill graph ([src/indiegraph.py]) *)
(* ===================================================================== *)

Module IndieGraph.

Record Node := {
  node_id : string;
  title : string;
  description : string;
  difficulty : Z;
  category : string;
  prerequisites : list string
}.

Record Edge := { edge_from : string; edge_to : string }.

Definition mk_edge (a b : string) : Edge := {| edge_from := a; edge_to := b |}.

(** The catalog embedded in [_load_indiegraph]: fifteen nodes and
    fifteen edges. *)
Definition _load_indiegraph : list Node * list Edge :=
  ([ Build_Node "basic_laundry" "Basic Laundry"
       "Sort, wash, dry, and fold clothes" 1 "household" [];
     Build_Node "meal_planning" "Meal Planning"
       "Plan meals and create shopping lists" 2 "cooking" [];
     Build_Node "grocery_shopping" "Grocery Shopping"
       "Navigate stores and stick to budget" 2 "shopping" ["meal_planning"];
     Build_Node "budget_tracking" "Budget Tracking"
       "Track income and expenses" 2 "finance" [];
     Build_Node "time_management" "Time Management"
       "Plan and prioritize daily activities" 2 "planning" [];
     Build_Node "public_transport" "Public Transportation"
       "Navigate buses, trains, and schedules" 2 "transportation"
       ["time_management"];
     Build_Node "appointment_booking" "Appointment Booking"
       "Schedule and manage appointments" 1 "communication"
       ["time_management"];
     Build_Node "emergency_preparedness" "Emergency Preparedness"
       "Handle emergency situations safely" 3 "safety"
       ["basic_laundry"; "budget_tracking"];
     Build_Node "cooking_basics" "Cooking Basics"
       "Prepare simple meals safely" 2 "cooking" ["grocery_shopping"];
     Build_Node "financial_planning" "Financial Planning"
       "Set financial goals and save money" 3 "finance"
       ["budget_tracking"; "time_management"];
     Build_Node "conflict_resolution" "Conflict Resolution"
       "Handle disagreements constructively" 3 "social"
       ["appointment_booking"];
     Build_Node "job_interview" "Job Interview Skills"
       "Prepare for and conduct interviews" 3 "career"
       ["conflict_resolution"; "financial_planning"];
     Build_Node "community_service" "Community Service"
       "Volunteer and give back to community" 2 "social"
       ["time_management"; "budget_tracking"];
     Build_Node "public_speaking" "Public Speaking"
       "Present confidently to groups" 3 "communication"
       ["conflict_resolution"];
     Build_Node "first_aid" "Basic First Aid"
       "Provide basic medical assistance" 2 "safety"
       ["emergency_preparedness"] ],
   [ mk_edge "meal_planning" "grocery_shopping";
     mk_edge "time_management" "public_transport";
     mk_edge "time_management" "appointment_booking";
     mk_edge "basic_laundry" "emergency_preparedness";
     mk_edge "budget_tracking" "emergency_preparedness";
     mk_edge "grocery_shopping" "cooking_basics";
     mk_edge "budget_tracking" "financial_planning";
     mk_edge "time_management" "financial_planning";
     mk_edge "appointment_booking" "conflict_resolution";
     mk_edge "conflict_resolution" "job_interview";
     mk_edge "financial_planning" "job_interview";
     mk_edge "time_management" "community_service";
     mk_edge "budget_tracking" "community_service";
     mk_edge "conflict_resolution" "public_speaking";
     mk_edge "emergency_preparedness" "first_aid" ]).

(** [{node['id']: [] for node in nodes}] *)
Definition empty_adjacency (ns : list Node) : gmap string (list string) :=
  foldl (fun adj n => <[node_id n := []]> adj) ∅ ns.

(** [if key in adjacency: adjacency[key].append(value)] *)
Definition append_if_present (key value : string)
    (adj : gmap string (list string)) : gmap string (list string) :=
  match adj !! key with
  | Some l => <[key := (l ++ [value])%list]> adj
  | None => adj
  end.

Definition _build_adjacency_list (ns : list Node) (es : list Edge)
    : gmap string (list string) :=
  foldl (fun adj e => append_if_present (edge_from e) (edge_to e) adj)
        (empty_adjacency ns) es.

Definition _build_reverse_adjacency (ns : list Node) (es : list Edge)
    : gmap string (list string) :=
  foldl (fun adj e => append_if_present (edge_to e) (edge_from e) adj)
        (empty_adjacency ns) es.

(** The state of an [IndieGraph] object. *)
Record t := {
  nodes : list Node;
  edges : list Edge;
  adjacency_list : gmap string (list string);
  reverse_adjacency : gmap string (list string)
}.

(** [__init__] on a given graph description. *)
Definition init (graph : list Node * list Edge) : t :=
  {| nodes := graph.1;
     edges := graph.2;
     adjacency_list := _build_adjacency_list graph.1 graph.2;
     reverse_adjacency := _build_reverse_adjacency graph.1 graph.2 |}.

(** [IndieGraph()]: the object built on the embedded catalog. *)
Definition reference : t := init _load_indiegraph.

Definition get_node_by_id (g : t) (id : string) : option Node :=
  find (fun n => bool_decide (node_id n = id)) (nodes g).

Definition get_prerequisites (g : t) (skill_id : string) : list string :=
  match get_node_by_id g skill_id with
  | None => []
  | Some n => prerequisites n
  end.

Definition get_dependents (g : t) (skill_id : string) : list string :=
  default [] (adjacency_list g !! skill_id).

Definition is_available (g : t) (skill_id : string)
    (completed_skills : gset string) : bool :=
  forallb (fun prereq => bool_decide (prereq ∈ completed_skills))
          (get_prerequisites g skill_id).

Definition get_available_skills (g : t) (completed_skills : gset string)
    : list Node :=
  filter (fun n => (node_id n ∉ completed_skills)
                   ∧ (is_available g (node_id n) completed_skills = true))
         (nodes g).

Definition calculate_centrality (g : t) (skill_id : string) : Z :=
  Z.of_nat (length (get_dependents g skill_id))
  - Z.of_nat (length (get_prerequisites g skill_id)).

(** The set [potential_skills] that [calculate_coverage] accumulates. *)
Definition potential_skills (g : t) (skill_id : string)
    (completed_skills : gset string) : gset string :=
  foldl (fun acc n =>
           if bool_decide (node_id n ∉ completed_skills)
              && bool_decide (node_id n ≠ skill_id)
              && is_available g (node_id n) (completed_skills ∪ {[skill_id]})
           then acc ∪ {[node_id n]} else acc)
        ∅ (nodes g).

(** [calculate_coverage]; the [0.0] of the early return is the integer
    [0]. *)
Definition calculate_coverage (g : t) (skill_id : string)
    (completed_skills : gset string) : Z :=
  if bool_decide (skill_id ∈ completed_skills) then 0
  else Z.of_nat (size (potential_skills g skill_id completed_skills)).

(** An element of the list that [get_next_skills] returns: a node as it
    is (the fallback branch), or a node extended with its three
    scores. *)
Inductive Recommendation :=
| Plain (n : Node)
| Scored (n : Node) (centrality coverage combined_score : Z).

Definition rec_node (r : Recommendation) : Node :=
  match r with Plain n => n | Scored n _ _ _ => n end.

Definition rec_score (r : Recommendation) : Z :=
  match r with Plain _ => 0 | Scored _ _ _ s => s end.

Definition score_skill (g : t) (completed_skills : gset string)
    (skill : Node) : Recommendation :=
  let centrality := calculate_centrality g (node_id skill) in
  let coverage := calculate_coverage g (node_id skill) completed_skills in
  Scored skill centrality coverage (centrality + coverage).

(** The body of [get_next_skills] once the completed quests are read. *)
Definition next_skills_of (g : t) (completed_skills : gset string)
    (limit : Z) : list Recommendation :=
  let available_skills := get_available_skills g completed_skills in
  match available_skills with
  | [] =>
      Py.slice_to
        (map Plain (filter (fun n => prerequisites n = []) (nodes g))) limit
  | _ =>
      Py.slice_to
        (Py.sort_desc rec_score
           (map (score_skill g completed_skills) available_skills))
        limit
  end.

Definition get_next_skills (g : t) (db : Db.Storage) (user_id : string)
    (limit : Z) : list Recommendation :=
  next_skills_of g (list_to_set (Db.completed_quest_ids db user_id)) limit.

(** ** [get_skill_path]: the breadth-first search *)

(** The two variables of the [while] loop: the queue of pairs
    [(skill, path)] and the set [visited]. *)
Definition bfs_state : Type :=
  list (string * list (option Node)) * gset string.

(** The outcome of one pass through the loop. *)
Inductive bfs_outcome :=
| Return (path : list (option Node))
| Continue (st : bfs_state).

(** The pairs appended to the queue for an unavailable [current_skill];
    [visited] already contains [current_skill]. *)
Definition unmet_prerequisites (g : t) (completed_skills visited : gset string)
    (current_skill : string) (path : list (option Node))
    : list (string * list (option Node)) :=
  map (fun prereq => (prereq, (path ++ [get_node_by_id g current_skill])%list))
      (filter (fun prereq => (prereq ∉ completed_skills) ∧ (prereq ∉ visited))
              (get_prerequisites g current_skill)).

(** One evaluation of the loop test and body.  An empty queue leaves
    the loop, after which the function returns [[]]. *)
Definition bfs_step (g : t) (completed_skills : gset string)
    (st : bfs_state) : bfs_outcome :=
  match st.1 with
  | [] => Return []
  | (current_skill, path) :: queue =>
      if bool_decide (current_skill ∈ st.2) then Continue (queue, st.2)
      else
        let visited := st.2 ∪ {[current_skill]} in
        if is_available g current_skill completed_skills
        then Return (path ++ [get_node_by_id g current_skill])%list
        else Continue
               ((queue ++ unmet_prerequisites g completed_skills visited
                            current_skill path)%list,
                visited)
  end.

(** The loop, run for at most [fuel] passes; [None] when the fuel is
    exhausted before the loop is left. *)
Fixpoint bfs_loop (fuel : nat) (g : t) (completed_skills : gset string)
    (st : bfs_state) : option (list (option Node)) :=
  match fuel with
  | O => None
  | S fuel' =>
      match bfs_step g completed_skills st with
      | Return path => Some path
      | Continue st' => bfs_loop fuel' g completed_skills st'
      end
  end.

Definition get_skill_path_fuel (fuel : nat) (g : t) (target_skill_id : string)
    (completed_skills : gset string) : option (list (option Node)) :=
  if bool_decide (target_skill_id ∈ completed_skills) then Some []
  else bfs_loop fuel g completed_skills ([(target_skill_id, [])], ∅).

(** The number of prerequisite entries of the catalog. *)
Definition prerequisite_count (ns : list Node) : nat :=
  sum_list (map (fun n => length (prerequisites n)) ns).

(** A number of passes that the loop never exceeds (see
    [IndieGraphFacts]). *)
Definition skill_path_fuel (g : t) : nat := S (S (prerequisite_count (nodes g))).

Definition get_skill_path (g : t) (target_skill_id : string)
    (completed_skills : gset string) : option (list (option Node)) :=
  get_skill_path_fuel (skill_path_fuel g) g target_skill_id completed_skills.

(** The potential that every pass of the loop decreases: the length of
    the queue plus the prerequisite entries of the nodes not yet
    visited. *)
Definition potential (g : t) (st : bfs_state) : nat :=
  (length st.1
   + prerequisite_count (filter (fun n => node_id n ∉ st.2) (nodes g)))%nat.

(** ** The words of the specification, for comparison *)

(** "The nodes whose prerequisite lists are empty (up to [limit] of
    them), in catalog order." *)
Definition basic_skills_in_catalog_order (g : t) (limit : nat) : list Node :=
  take limit (filter (fun n => prerequisites n = []) (nodes g)).

(** "The number of catalog nodes other than [id] and not in
    [completed] that are not available under [completed] alone but
    become available under [completed ∪ {id}]." *)
Definition newly_unlocked (g : t) (skill_id : string)
    (completed_skills : gset string) : gset string :=
  list_to_set
    (map node_id
       (filter (fun n => (node_id n ≠ skill_id)
                         ∧ (node_id n ∉ completed_skills)
                         ∧ (is_available g (node_id n) completed_skills = false)
                         ∧ (is_available g (node_id n)
                              (completed_skills ∪ {[skill_id]}) = true))
               (nodes g))).

(** A two-node catalog whose prerequisite edges form a cycle. *)
Definition cyclic : t :=
  init ([ Build_Node "a" "A" "" 1 "x" ["b"];
          Build_Node "b" "B" "" 1 "x" ["a"] ],
        [ mk_edge "b" "a"; mk_edge "a" "b" ]).

(** ** [get_skill_tree] *)

(** A node of the tree: the catalog node extended with three keys. *)
Record TreeNode := {
  tree_node : Node;
  tree_completed : bool;
  tree_available : bool;
  tree_centrality : Z
}.

(** The returned dictionary; [list(completed_skills)] lists the set in
    an order that Python does not fix, [elements] here. *)
Record SkillTree := {
  tree_nodes : list TreeNode;
  tree_edges : list Edge;
  tree_completed_ids : list string
}.

Definition get_skill_tree (g : t) (completed_skills : gset string) : SkillTree :=
  {| tree_nodes :=
       map (fun n =>
              {| tree_node := n;
                 tree_completed := bool_decide (node_id n ∈ completed_skills);
                 tree_available := is_available g (node_id n) completed_skills;
                 tree_centrality := calculate_centrality g (node_id n) |})
           (nodes g);
     tree_edges := edges g;
     tree_completed_ids := elements completed_skills |}.

(** ** Vocabulary for the properties of the path search *)

(** Every id of the list but the first is a prerequisite of the one
    before it. *)
Fixpoint prerequisite_chain (g : t) (ids : list string) : Prop :=
  match ids with
  | [] => True
  | a :: rest =>
      match rest with
      | [] => True
      | b :: _ => b ∈ get_prerequisites g a
      end
      ∧ prerequisite_chain g rest
  end.



(** What the loop of [get_skill_path] keeps true of every queued pair
    [(current, path)]: [path] lists the nodes of a prerequisite chain
    that starts at the target and leads to [current], none of its skills
    is available and none is completed. *)
Definition queued_chain (g : t) (target : string) (completed_skills : gset string)
    (entry : string * list (option Node)) : Prop :=
  ∃ ids,
    entry.2 = map (get_node_by_id g) ids
    ∧ head (ids ++ [entry.1]) = Some target
    ∧ prerequisite_chain g (ids ++ [entry.1])
    ∧ Forall (fun i => is_available g i completed_skills = false) ids
    ∧ Forall (fun i => i ∉ completed_skills) (ids ++ [entry.1]).


(** A storage in which the user has completed every skill of the
    reference catalog. *)
Definition all_completed_storage : Db.Storage :=
  {| Db.completed_quest_ids := fun _ => map node_id (nodes reference);
     Db.completed_quest_count := fun _ => [15];
     Db.jar_sum := fun _ _ => [0.0%float];
     Db.log_dates := fun _ => [];
     Db.board_post_count := fun _ => [0];
     Db.board_claim_count := fun _ => [0];
     Db.recent_sim_scores := fun _ => [];
     Db.user_settings := ∅;
     Db.today := 739000 |}.

End IndieGraph.

(* ===================================================================== *)
(** * Scenario scoring ([src/sim.py]) *)
(* ===================================================================== *)

Module Sim.

(** A [dict] from category names to integers, in insertion order (the
    order in which Python iterates over it). *)
Definition scores_dict : Type := list (string * Z).

Record Choice := { text : string; scores : scores_dict }.

Record Step := { question : string; choices : list Choice }.

Record Scenario := {
  scenario_id : string;
  scenario_title : string;
  scenario_description : string;
  est_time : Z;
  steps : list Step
}.

(** [self.scoring_weights] *)
Definition scoring_weights : list (string * float) :=
  [ ("frugality", 0.25%float); ("safety", 0.30%float);
    ("time", 0.20%float); ("initiative", 0.25%float) ].

(** [d[key]] *)
Fixpoint getitem {V} (d : list (string * V)) (key : string) : Py.result V :=
  match d with
  | [] => Py.raise Py.KeyError
  | (k, v) :: d' => if bool_decide (k = key) then Py.ret v else getitem d' key
  end.

(** [d[key] += delta] on a key that must be present. *)
Fixpoint add_to (d : scores_dict) (key : string) (delta : Z)
    : Py.result scores_dict :=
  match d with
  | [] => Py.raise Py.KeyError
  | (k, v) :: d' =>
      if bool_decide (k = key) then Py.ret ((k, v + delta) :: d')
      else let* r := add_to d' key delta in Py.ret ((k, v) :: r)
  end.

(** The inner loop: [for category, score in choice['scores'].items()]. *)
Fixpoint add_choice (category_scores : scores_dict) (items : scores_dict)
    : Py.result scores_dict :=
  match items with
  | [] => Py.ret category_scores
  | (category, score) :: items' =>
      let* d := add_to category_scores category score in
      add_choice d items'
  end.

(** The outer loop: [for choice in choices]. *)
Fixpoint add_choices (category_scores : scores_dict) (cs : list Choice)
    : Py.result scores_dict :=
  match cs with
  | [] => Py.ret category_scores
  | choice :: cs' =>
      let* d := add_choice category_scores (scores choice) in
      add_choices d cs'
  end.

(** [category_scores[category] = round(category_scores[category] / num_steps)]
    for every category. *)
Fixpoint average (category_scores : scores_dict) (num_steps : Z)
    : Py.result scores_dict :=
  match category_scores with
  | [] => Py.ret []
  | (category, total) :: d' =>
      let* q := Py.truediv total num_steps in
      let* r := Py.round q in
      let* rest := average d' num_steps in
      Py.ret ((category, r) :: rest)
  end.

(** [overall_score += score * self.scoring_weights[category]] for every
    category, starting from [overall_score]. *)
Fixpoint weighted_sum (overall_score : float) (category_scores : scores_dict)
    : Py.result float :=
  match category_scores with
  | [] => Py.ret overall_score
  | (category, score) :: d' =>
      let* w := getitem scoring_weights category in
      weighted_sum (overall_score + Py.float_of_Z score * w)%float d'
  end.

Definition calculate_score (scenario : Scenario) (cs : list Choice)
    : Py.result (Z * scores_dict) :=
  if bool_decide (cs = []) || negb (length cs =? length (steps scenario))%nat
  then Py.ret (0, [])
  else
    let* category_scores :=
      add_choices [("frugality", 0); ("safety", 0); ("time", 0); ("initiative", 0)] cs in
    let num_steps := Z.of_nat (length cs) in
    let* category_scores := average category_scores num_steps in
    let* overall_score := weighted_sum 0%float category_scores in
    let* overall := Py.round overall_score in
    Py.ret (overall, category_scores).

(** The first two steps of [scenario_budget_shopping], cut short: enough
    to exercise the scoring. *)
Definition shopping_two_steps : Scenario :=
  {| scenario_id := "scenario_budget_shopping";
     scenario_title := "Budget Shopping Challenge";
     scenario_description := "";
     est_time := 5;
     steps :=
       [ {| question := "first step";
            choices :=
              [ {| text := "Grab a cart and start shopping";
                   scores := [("frugality", 20); ("safety", 80); ("time", 60); ("initiative", 40)] |};
                {| text := "Make a list and check prices first";
                   scores := [("frugality", 90); ("safety", 90); ("time", 80); ("initiative", 70)] |} ] |};
         {| question := "more expensive than expected";
            choices :=
              [ {| text := "Buy them anyway and hope for the best";
                   scores := [("frugality", 20); ("safety", 60); ("time", 50); ("initiative", 40)] |};
                {| text := "Look for cheaper alternatives or sales";
                   scores := [("frugality", 95); ("safety", 85); ("time", 70); ("initiative", 80)] |} ] |} ] |}.

(** The scenarios embedded in [_load_scenarios]. *)
Definition _load_scenarios : list Scenario :=
[
  {| scenario_id := "scenario_budget_shopping";
     scenario_title := "Budget Shopping Challenge";
     scenario_description := "You have $50 to buy groceries for the week. How do you approach this?";
     est_time := 5;
     steps :=
    [
      {| question := "You arrive at the grocery store with $50. What's your first step?";
         choices :=
        [
          {| text := "Grab a cart and start shopping";
             scores := [("frugality", 20); ("safety", 80); ("time", 60); ("initiative", 40)] |};
          {| text := "Make a list and check prices first";
             scores := [("frugality", 90); ("safety", 90); ("time", 80); ("initiative", 70)] |};
          {| text := "Buy whatever looks good";
             scores := [("frugality", 30); ("safety", 70); ("time", 40); ("initiative", 30)] |} ] |};
      {| question := "You find some items are more expensive than expected. What do you do?";
         choices :=
        [
          {| text := "Buy them anyway and hope for the best";
             scores := [("frugality", 20); ("safety", 60); ("time", 50); ("initiative", 40)] |};
          {| text := "Look for cheaper alternatives or sales";
             scores := [("frugality", 95); ("safety", 85); ("time", 70); ("initiative", 80)] |};
          {| text := "Skip those items entirely";
             scores := [("frugality", 80); ("safety", 90); ("time", 60); ("initiative", 60)] |} ] |};
      {| question := "You're at the checkout and realize you're over budget. What's your approach?";
         choices :=
        [
          {| text := "Put back the most expensive items";
             scores := [("frugality", 90); ("safety", 95); ("time", 80); ("initiative", 85)] |};
          {| text := "Ask to borrow money from a friend";
             scores := [("frugality", 40); ("safety", 70); ("time", 60); ("initiative", 50)] |};
          {| text := "Use a credit card (even though you don't have one)";
             scores := [("frugality", 10); ("safety", 30); ("time", 40); ("initiative", 20)] |} ] |} ] |};
  {| scenario_id := "scenario_transportation";
     scenario_title := "First Solo Transportation";
     scenario_description := "You need to get to a new location across town. How do you plan your journey?";
     est_time := 4;
     steps :=
    [
      {| question := "How do you start planning your route?";
         choices :=
        [
          {| text := "Ask a friend to drive you";
             scores := [("frugality", 60); ("safety", 85); ("time", 70); ("initiative", 40)] |};
          {| text := "Research public transit options online";
             scores := [("frugality", 90); ("safety", 80); ("time", 85); ("initiative", 85)] |};
          {| text := "Just start walking and figure it out";
             scores := [("frugality", 95); ("safety", 40); ("time", 30); ("initiative", 60)] |} ] |};
      {| question := "You discover the bus route has changed. What's your next move?";
         choices :=
        [
          {| text := "Call a rideshare service";
             scores := [("frugality", 30); ("safety", 90); ("time", 80); ("initiative", 70)] |};
          {| text := "Check for alternative routes or ask for help";
             scores := [("frugality", 85); ("safety", 85); ("time", 70); ("initiative", 90)] |};
          {| text := "Give up and go home";
             scores := [("frugality", 80); ("safety", 95); ("time", 50); ("initiative", 20)] |} ] |};
      {| question := "You arrive at your destination 15 minutes early. What do you do?";
         choices :=
        [
          {| text := "Find a nearby cafe to wait";
             scores := [("frugality", 40); ("safety", 90); ("time", 85); ("initiative", 70)] |};
          {| text := "Walk around and explore the area";
             scores := [("frugality", 90); ("safety", 70); ("time", 80); ("initiative", 85)] |};
          {| text := "Stand outside and wait";
             scores := [("frugality", 95); ("safety", 80); ("time", 60); ("initiative", 50)] |} ] |} ] |};
  {| scenario_id := "scenario_emergency";
     scenario_title := "Emergency Situation";
     scenario_description := "You're home alone and encounter an unexpected situation. How do you respond?";
     est_time := 3;
     steps :=
    [
      {| question := "You hear a strange noise in the house. What's your first reaction?";
         choices :=
        [
          {| text := "Investigate the noise immediately";
             scores := [("frugality", 80); ("safety", 30); ("time", 60); ("initiative", 70)] |};
          {| text := "Call a parent or trusted adult";
             scores := [("frugality", 90); ("safety", 95); ("time", 80); ("initiative", 80)] |};
          {| text := "Ignore it and continue what you're doing";
             scores := [("frugality", 70); ("safety", 40); ("time", 90); ("initiative", 30)] |} ] |};
      {| question := "You discover a small kitchen fire. What do you do?";
         choices :=
        [
          {| text := "Try to put it out yourself";
             scores := [("frugality", 80); ("safety", 20); ("time", 50); ("initiative", 60)] |};
          {| text := "Call 911 immediately";
             scores := [("frugality", 90); ("safety", 95); ("time", 70); ("initiative", 90)] |};
          {| text := "Run outside and call for help";
             scores := [("frugality", 90); ("safety", 90); ("time", 60); ("initiative", 80)] |} ] |};
      {| question := "The emergency is resolved. What's your next step?";
         choices :=
        [
          {| text := "Document what happened for future reference";
             scores := [("frugality", 90); ("safety", 95); ("time", 80); ("initiative", 90)] |};
          {| text := "Forget about it and move on";
             scores := [("frugality", 70); ("safety", 60); ("time", 90); ("initiative", 40)] |};
          {| text := "Tell everyone you know about it";
             scores := [("frugality", 80); ("safety", 70); ("time", 60); ("initiative", 60)] |} ] |} ] |};
  {| scenario_id := "scenario_social_conflict";
     scenario_title := "Social Conflict Resolution";
     scenario_description := "You're in a group situation where there's disagreement. How do you handle it?";
     est_time := 4;
     steps :=
    [
      {| question := "Two friends are arguing about where to eat. What do you do?";
         choices :=
        [
          {| text := "Stay quiet and let them figure it out";
             scores := [("frugality", 80); ("safety", 90); ("time", 40); ("initiative", 30)] |};
          {| text := "Suggest a compromise or alternative";
             scores := [("frugality", 85); ("safety", 95); ("time", 70); ("initiative", 90)] |};
          {| text := "Pick a side and join the argument";
             scores := [("frugality", 70); ("safety", 40); ("time", 30); ("initiative", 50)] |} ] |};
      {| question := "The argument escalates. How do you respond?";
         choices :=
        [
          {| text := "Try to mediate and calm everyone down";
             scores := [("frugality", 90); ("safety", 85); ("time", 60); ("initiative", 85)] |};
          {| text := "Leave the situation entirely";
             scores := [("frugality", 85); ("safety", 95); ("time", 80); ("initiative", 60)] |};
          {| text := "Get involved and take sides";
             scores := [("frugality", 60); ("safety", 30); ("time", 40); ("initiative", 40)] |} ] |};
      {| question := "The conflict is resolved. What's your approach going forward?";
         choices :=
        [
          {| text := "Suggest establishing ground rules for future decisions";
             scores := [("frugality", 90); ("safety", 95); ("time", 80); ("initiative", 90)] |};
          {| text := "Avoid similar situations in the future";
             scores := [("frugality", 80); ("safety", 85); ("time", 70); ("initiative", 50)] |};
          {| text := "Act like nothing happened";
             scores := [("frugality", 70); ("safety", 60); ("time", 90); ("initiative", 40)] |} ] |} ] |};
  {| scenario_id := "scenario_time_management";
     scenario_title := "Time Management Challenge";
     scenario_description := "You have multiple commitments and deadlines approaching. How do you prioritize?";
     est_time := 4;
     steps :=
    [
      {| question := "You have homework, a part-time job, and a social event all due today. What's your first step?";
         choices :=
        [
          {| text := "Start with whatever feels easiest";
             scores := [("frugality", 60); ("safety", 70); ("time", 40); ("initiative", 50)] |};
          {| text := "Make a priority list and timeline";
             scores := [("frugality", 90); ("safety", 95); ("time", 90); ("initiative", 85)] |};
          {| text := "Try to do everything at once";
             scores := [("frugality", 40); ("safety", 30); ("time", 20); ("initiative", 60)] |} ] |};
      {| question := "You realize you can't complete everything on time. What do you do?";
         choices :=
        [
          {| text := "Communicate with relevant people and ask for extensions";
             scores := [("frugality", 90); ("safety", 95); ("time", 80); ("initiative", 90)] |};
          {| text := "Work through the night to finish everything";
             scores := [("frugality", 70); ("safety", 40); ("time", 60); ("initiative", 70)] |};
          {| text := "Give up on some commitments";
             scores := [("frugality", 60); ("safety", 70); ("time", 80); ("initiative", 40)] |} ] |};
      {| question := "You successfully manage your time. What's your reflection?";
         choices :=
        [
          {| text := "Analyze what worked and plan better for next time";
             scores := [("frugality", 95); ("safety", 95); ("time", 90); ("initiative", 95)] |};
          {| text := "Feel relieved it's over";
             scores := [("frugality", 70); ("safety", 80); ("time", 60); ("initiative", 50)] |};
          {| text := "Take on even more commitments";
             scores := [("frugality", 40); ("safety", 30); ("time", 20); ("initiative", 60)] |} ] |} ] |} ].

Definition get_available_scenarios : list Scenario := _load_scenarios.

Definition get_scenario_by_id (id : string) : option Scenario :=
  find (fun scenario => bool_decide (scenario_id scenario = id)) _load_scenarios.

(** [get_judgment_score]: the average of the last five simulation
    scores, [50.0] when there is none. *)
Definition get_judgment_score (db : Db.Storage) (user_id : string)
    : Py.result float :=
  match Db.recent_sim_scores db user_id with
  | [] => Py.ret 50.0%float
  | scores => Py.truediv (foldl Z.add 0 scores) (Z.of_nat (length scores))
  end.

(** ** Vocabulary for the properties of the scoring *)

(** The four keys of [category_scores], in insertion order. *)
Definition categories : list string :=
  ["frugality"; "safety"; "time"; "initiative"].

(** Every key of the choice is one of the keys of [d]. *)
Definition known_in (d : scores_dict) (choice : Choice) : Prop :=
  Forall (fun kv => kv.1 ∈ map fst d) (scores choice).

(** What a list of items, and a list of choices, add to a category. *)
Definition item_total (category : string) (items : scores_dict) : Z :=
  foldr (fun kv acc => if bool_decide (kv.1 = category) then kv.2 + acc else acc)
        0 items.

Definition category_total (category : string) (cs : list Choice) : Z :=
  foldr (fun choice acc => item_total category (scores choice) + acc) 0 cs.

(** The ways to play a list of steps: one choice for each step. *)
Fixpoint runs (ss : list Step) : list (list Choice) :=
  match ss with
  | [] => [[]]
  | s :: ss' =>
      flat_map (fun choice => map (cons choice) (runs ss')) (choices s)
  end.

(** The check that a result of [calculate_score] is a score within
    [[0, 100]] with a breakdown of the four categories, each within
    [[0, 100]]. *)
Definition in_range (r : Py.result (Z * scores_dict)) : bool :=
  match r with
  | inl _ => false
  | inr (overall, breakdown) =>
      (0 <=? overall) && (overall <=? 100)
      && bool_decide (map fst breakdown = categories)
      && forallb (fun kv => (0 <=? kv.2) && (kv.2 <=? 100)) breakdown
  end.

End Sim.

(* ===================================================================== *)
(** * The budget ledger ([src/budget.py]) *)
(* ===================================================================== *)

Module Budget.

Record Overview := { spend : float; save : float; share : float; total : float }.

(** [float(result[0]['balance']) if result else 0.0] *)
Definition get_jar_balance (db : Db.Storage) (user_id jar : string) : float :=
  match Db.jar_sum db user_id jar with
  | balance :: _ => balance
  | [] => 0.0%float
  end.

Definition get_budget_overview (db : Db.Storage) (user_id : string) : Overview :=
  let spend_balance := get_jar_balance db user_id "spend" in
  let save_balance := get_jar_balance db user_id "save" in
  let share_balance := get_jar_balance db user_id "share" in
  {| spend := spend_balance; save := save_balance; share := share_balance;
     total := (spend_balance + save_balance + share_balance)%float |}.

(** The [for i, log_date in enumerate(log_dates)] loop of
    [get_current_streak], from index [i] on. *)
Fixpoint streak_loop (current_date i : Z) (log_dates : list Z) (streak : Z) : Z :=
  match log_dates with
  | [] => streak
  | log_date :: rest =>
      if i =? 0 then
        if (log_date =? current_date) || (log_date =? current_date - 1)
        then streak_loop current_date (i + 1) rest 1
        else streak
      else
        if log_date =? current_date - i
        then streak_loop current_date (i + 1) rest (streak + 1)
        else streak
  end.

(** [get_current_streak]; the calls made while one score is computed read
    the same date from the clock. *)
Definition get_current_streak (db : Db.Storage) (user_id : string) : Z :=
  match Db.log_dates db user_id with
  | [] => 0
  | dates => streak_loop (Db.today db) 0 dates 0
  end.

Definition get_financial_health_score (db : Db.Storage) (user_id : string) : float :=
  let overview := get_budget_overview db user_id in
  let streak := get_current_streak db user_id in
  if (total overview =? 0)%float then 0.0%float
  else
    let savings_ratio := (save overview / total overview)%float in
    let savings_score := Py.min 100 (savings_ratio * 200) in
    let streak_bonus := Z.min 20 (streak * 2) in
    let spend_ratio :=
      if (0 <? total overview)%float then (spend overview / total overview)%float
      else 1%float in
    let spending_score := Py.max 0 (30 - spend_ratio * 30) in
    let total_score :=
      (savings_score + Py.float_of_Z streak_bonus + spending_score)%float in
    Py.min 100 total_score.

(** ** [update_ratios] *)

Definition update_ratios (db : Db.Storage) (user_id : string)
    (spend_ratio save_ratio share_ratio : float) : bool * Db.Storage :=
  Db.update_user_settings db user_id
    [("spend_ratio", spend_ratio); ("save_ratio", save_ratio);
     ("share_ratio", share_ratio)].

(** ** [get_user_badges] *)

Record Badge := { badge_name : string; badge_description : string }.

(** [self.badges] *)
Definition first_log : Badge :=
  {| badge_name := "First Steps"; badge_description := "Logged your first transaction" |}.
Definition week_streak : Badge :=
  {| badge_name := "Week Warrior"; badge_description := "7-day logging streak" |}.
Definition month_streak : Badge :=
  {| badge_name := "Monthly Master"; badge_description := "30-day logging streak" |}.
Definition save_milestone : Badge :=
  {| badge_name := "Saver"; badge_description := "Saved $100 total" |}.
Definition share_milestone : Badge :=
  {| badge_name := "Giver"; badge_description := "Shared $50 total" |}.

(** [earned_badges.append(badge)] under a condition. *)
Definition append_if (condition : bool) (badge : Badge) (earned : list Badge)
    : list Badge :=
  if condition then (earned ++ [badge])%list else earned.

(** [get_user_badges]; [None] stands for the [IndexError] of
    [first_log[0]] on an empty result. *)
Definition get_user_badges (db : Db.Storage) (counts : Db.Counts)
    (user_id : string) : option (list Badge) :=
  match Db.budget_log_count counts user_id with
  | [] => None
  | count :: _ =>
      let earned := append_if (0 <? count) first_log [] in
      let streak := get_current_streak db user_id in
      let earned := append_if (7 <=? streak) week_streak earned in
      let earned := append_if (30 <=? streak) month_streak earned in
      let total_saved := get_jar_balance db user_id "save" in
      let earned := append_if (100 <=? total_saved)%float save_milestone earned in
      let total_shared := get_jar_balance db user_id "share" in
      let earned := append_if (50 <=? total_shared)%float share_milestone earned in
      Some earned
  end.

End Budget.

(* ===================================================================== *)
(** * The Autonomy Index ([src/autonomy.py]) *)
(* ===================================================================== *)

Module Autonomy.

Record Weights := {
  skills : float;
  budgeting : float;
  community : float;
  judgment : float
}.

(** The state of an [AutonomyIndex] object: the managers it holds have
    no mutable state, which leaves [default_weights]. *)
Record t := { default_weights : Weights }.

(** [__init__] *)
Definition init : t :=
  {| default_weights :=
       {| skills := 0.30; budgeting := 0.30; community := 0.15; judgment := 0.25 |} |}.

Definition _calculate_skills_score (db : Db.Storage) (user_id : string) : Z :=
  let count := hd 0 (Db.completed_quest_count db user_id) in
  Z.min 100 (count * 10).

(** [_calculate_budgeting_score]; when [max] or [min] returns its integer
    argument ([0] or [100]) the result is that integer as a float. *)
Definition _calculate_budgeting_score (db : Db.Storage) (user_id : string) : float :=
  let base_score := Budget.get_financial_health_score db user_id in
  let streak := Budget.get_current_streak db user_id in
  let streak_bonus := Z.min 20 (streak * 2) in
  let overview := Budget.get_budget_overview db user_id in
  let total := Budget.total overview in
  let overspend_penalty :=
    if (0 <? total)%float then
      let spend_ratio := (Budget.spend overview / total)%float in
      Py.max 0 ((spend_ratio - 0.7) * 100)
    else 0%float in
  let final_score :=
    (base_score + Py.float_of_Z streak_bonus - overspend_penalty)%float in
  Py.max 0 (Py.min 100 final_score).

Definition _calculate_community_score (db : Db.Storage) (user_id : string) : Z :=
  let posts_score := Z.min 50 (hd 0 (Db.board_post_count db user_id) * 5) in
  let claims_score := Z.min 50 (hd 0 (Db.board_claim_count db user_id) * 10) in
  let total_score := posts_score + claims_score in
  Z.min 100 total_score.

Definition _calculate_judgment_score (db : Db.Storage) (user_id : string)
    : Py.result float :=
  match Db.recent_sim_scores db user_id with
  | [] => Py.ret 50.0%float
  | scores => Py.truediv (foldl Z.add 0 scores) (Z.of_nat (length scores))
  end.

(** [compute_autonomy_index]: the index, and the storage as
    [get_user_settings] leaves it. *)
Definition compute_autonomy_index (self : t) (db : Db.Storage) (user_id : string)
    : Py.result float * Db.Storage :=
  let '(settings, db) := Db.get_user_settings db user_id in
  let weights :=
    {| skills := Db.skills_weight settings;
       budgeting := Db.budgeting_weight settings;
       community := Db.community_weight settings;
       judgment := Db.judgment_weight settings |} in
  let skills_score := _calculate_skills_score db user_id in
  let budgeting_score := _calculate_budgeting_score db user_id in
  let community_score := _calculate_community_score db user_id in
  (let* judgment_score := _calculate_judgment_score db user_id in
   let autonomy_index :=
     (Py.float_of_Z skills_score * skills weights
      + budgeting_score * budgeting weights
      + Py.float_of_Z community_score * community weights
      + judgment_score * judgment weights)%float in
   Py.ret (Py.round1 autonomy_index),
   db).

(** [update_weights]: the returned flag and the object afterwards. *)
Definition update_weights (self : t)
    (skills_weight budgeting_weight community_weight judgment_weight : float)
    : bool * t :=
  let total_weight :=
    (skills_weight + budgeting_weight + community_weight + judgment_weight)%float in
  if (0.01 <? abs (total_weight - 1.0))%float then (false, self)
  else
    (true,
     {| default_weights :=
          {| skills := skills_weight; budgeting := budgeting_weight;
             community := community_weight; judgment := judgment_weight |} |}).

(** A sequence of [update_weights] calls on one object, each given by
    its four arguments. *)
Definition update_weights_many (self : t)
    (calls : list (float * float * float * float)) : t :=
  foldl (fun s '(a, b, c, d) => (update_weights s a b c d).2) self calls.

(** ** The words of the specification, for comparison *)

(** "min(100, min(100, savingsRatio×200) + min(20, streak×2)
     + max(0, 30 − spendRatio×30))" *)
Definition spec_financial_health_score (savings_ratio spend_ratio : float)
    (streak : Z) : float :=
  Py.min 100
    (Py.min 100 (savings_ratio * 200) + Py.float_of_Z (Z.min 20 (streak * 2))
     + Py.max 0 (30 - spend_ratio * 30))%float.

(** "financialHealthScore + min(20, streak×2)
     − max(0, (spendShareOfTotal − 0.70) × 100), clamped to [0,100]" *)
Definition spec_budgeting_score (financial_health_score spend_share : float)
    (streak : Z) : float :=
  Py.max 0
    (Py.min 100
       (financial_health_score + Py.float_of_Z (Z.min 20 (streak * 2))
        - Py.max 0 ((spend_share - 0.70) * 100))%float).

(** ** [get_individual_scores] *)

(** The returned dictionary: the two integer scores and the two float
    scores. *)
Record Scores := {
  skills_score : Z;
  budgeting_score : float;
  community_score : Z;
  judgment_score : float
}.

Definition get_individual_scores (db : Db.Storage) (user_id : string)
    : Py.result Scores :=
  let skills := _calculate_skills_score db user_id in
  let budgeting := _calculate_budgeting_score db user_id in
  let community := _calculate_community_score db user_id in
  let* judgment := _calculate_judgment_score db user_id in
  Py.ret {| skills_score := skills; budgeting_score := budgeting;
            community_score := community; judgment_score := judgment |}.

(** ** [get_next_milestones] *)

Record Milestone := {
  area : string;
  milestone : string;
  current : Z;
  target : Z;
  reward : string
}.

(** [milestones.append(m)] under a condition. *)
Definition append_milestone (condition : bool) (m : Milestone)
    (milestones : list Milestone) : list Milestone :=
  if condition then (milestones ++ [m])%list else milestones.

(** [get_next_milestones]: an [int] is formatted into the texts in
    decimal, which is what [pretty] does. *)
Definition get_next_milestones (db : Db.Storage) (counts : Db.Counts)
    (user_id : string) : Py.result (list Milestone) :=
  let* scores := get_individual_scores db user_id in
  let milestones := [] in
  let quest_count := hd 0 (Db.completed_quest_count db user_id) in
  let next_quest_milestone := (quest_count / 5 + 1) * 5 in
  let milestones :=
    append_milestone (next_quest_milestone <=? 20)
      {| area := "Skills";
         milestone := "Complete " +:+ pretty next_quest_milestone +:+ " quests";
         current := quest_count;
         target := next_quest_milestone;
         reward := "+" +:+ pretty (next_quest_milestone * 2) +:+ " XP" |}
      milestones in
  let streak := Budget.get_current_streak db user_id in
  let next_streak_milestone := (streak / 7 + 1) * 7 in
  let milestones :=
    append_milestone (next_streak_milestone <=? 30)
      {| area := "Budgeting";
         milestone := pretty next_streak_milestone +:+ "-day logging streak";
         current := streak;
         target := next_streak_milestone;
         reward := "+15 Autonomy Points" |}
      milestones in
  let posts_count := hd 0 (Db.board_post_count db user_id) in
  let next_post_milestone := (posts_count / 3 + 1) * 3 in
  let milestones :=
    append_milestone (next_post_milestone <=? 15)
      {| area := "Community";
         milestone := "Create " +:+ pretty next_post_milestone +:+ " board posts";
         current := posts_count;
         target := next_post_milestone;
         reward := "+10 Community Points" |}
      milestones in
  let runs_count := hd 0 (Db.sim_run_count counts user_id) in
  let next_sim_milestone := (runs_count / 2 + 1) * 2 in
  let milestones :=
    append_milestone (next_sim_milestone <=? 10)
      {| area := "Judgment";
         milestone :=
           "Complete " +:+ pretty next_sim_milestone +:+ " IndieSim scenarios";
         current := runs_count;
         target := next_sim_milestone;
         reward := "+20 Judgment Points" |}
      milestones in
  Py.ret milestones.

(** ** Vocabulary for the properties of the weights *)

(** The test that [update_weights] applies, passed. *)
Definition accepted (w : Weights) : Prop :=
  (0.01 <? abs (skills w + budgeting w + community w + judgment w - 1.0))%float
  = false.

End Autonomy.

(* ===================================================================== *)
(** * Text helpers ([src/utils.py]) *)
(* ===================================================================== *)

Module Utils.

(** A Python [str] taken apart character by character: the list of its
    code points. *)
Abbreviation text := (list N).

(** ["..."] *)
Definition dots : text := [46; 46; 46]%N.

(** [truncate_text] *)
Definition truncate_text (t : text) (max_length : Z) : text :=
  if Z.of_nat (length t) <=? max_length then t
  else (Py.slice_to t (max_length - 3) ++ dots)%list.

(** [dangerous_chars]: the code points of the angle brackets, the two
    quotes, the ampersand, the semicolon, the parentheses and the
    braces, in the order of the source. *)
Definition dangerous_chars : list N :=
  [60; 62; 34; 39; 38; 59; 40; 41; 123; 125]%N.

(** [text.replace(char, '')] for a one-character [char]. *)
Definition remove_char (char : N) (t : text) : text :=
  filter (fun c => c ≠ char) t.

Section strip.

(** The test that [str.strip] applies to a character: it is part of
    CPython, and the properties below hold for any such test. *)
Variable isspace : N -> bool.

Fixpoint lstrip (t : text) : text :=
  match t with
  | [] => []
  | c :: t' => if isspace c then lstrip t' else t
  end.

Definition rstrip (t : text) : text := reverse (lstrip (reverse t)).

(** [text.strip()] *)
Definition strip (t : text) : text := rstrip (lstrip t).

(** [sanitize_input] *)
Definition sanitize_input (t : text) : text :=
  match t with
  | [] => []
  | _ => strip (foldl (fun t char => remove_char char t) t dangerous_chars)
  end.

End strip.

(** The characters that [str.strip] removes in CPython 3: a sample
    instance of the test. *)
Definition isspace_cpython (c : N) : bool :=
  bool_decide
    (c ∈ [9; 10; 11; 12; 13; 28; 29; 30; 31; 32; 133; 160; 5760;
          8192; 8193; 8194; 8195; 8196; 8197; 8198; 8199; 8200; 8201; 8202;
          8232; 8233; 8239; 8287; 12288]%N).

End Utils.

(* ===================================================================== *)
(** * Quest progress ([src/quests.py]) *)
(* ===================================================================== *)

(** The functions of this module write to the tables they read, so the
    two tables are modelled as the lists of their rows, in insertion
    order, and each statement of the source as the list operation it
    denotes. *)

Module Quests.

Record QuestRow := {
  quest_id : string;
  quest_title : string;
  quest_description : string;
  quest_difficulty : Z;
  xp : Z;
  est_minutes : Z;
  materials : string
}.

(** A row of [quest_progress]; [None] is SQL's [NULL]. *)
Record ProgressRow := {
  progress_id : string;
  progress_user : string;
  progress_quest : string;
  started_at : option string;
  completed_at : option string
}.

Record Tables := {
  quest : list QuestRow;
  quest_progress : list ProgressRow
}.

(** [SELECT ... FROM quest WHERE id = ?] *)
Definition select_quest (tables : Tables) (id : string) : list QuestRow :=
  filter (fun q => quest_id q = id) (quest tables).

(** [SELECT ... FROM quest_progress WHERE user_id = ? AND quest_id = ?] *)
Definition select_progress (tables : Tables) (user_id id : string)
    : list ProgressRow :=
  filter (fun p => progress_user p = user_id ∧ progress_quest p = id)
         (quest_progress tables).

(** [self.difficulty_names.get(difficulty, 'Unknown')] *)
Definition difficulty_name (difficulty : Z) : string :=
  if difficulty =? 1 then "Beginner"
  else if difficulty =? 2 then "Intermediate"
  else if difficulty =? 3 then "Advanced"
  else "Unknown".

(** [get_quest_by_id]: the row and the key [difficulty_name] added to
    it. *)
Definition get_quest_by_id (tables : Tables) (id : string)
    : option (QuestRow * string) :=
  match select_quest tables id with
  | [] => None
  | q :: _ => Some (q, difficulty_name (quest_difficulty q))
  end.

(** The truth value of a column that holds [NULL] or a string. *)
Definition truthy (value : option string) : bool :=
  match value with
  | None => false
  | Some s => negb (bool_decide (s = ""))
  end.

(** [start_quest]; [new_id] is the result of [generate_id()] and [now]
    that of [datetime.now().isoformat()]. *)
Definition start_quest (tables : Tables) (user_id id new_id now : string)
    : bool * Tables :=
  match get_quest_by_id tables id with
  | None => (false, tables)
  | Some _ =>
      match select_progress tables user_id id with
      | _ :: _ => (false, tables)
      | [] =>
          (true,
           {| quest := quest tables;
              quest_progress :=
                (quest_progress tables
                 ++ [ {| progress_id := new_id; progress_user := user_id;
                         progress_quest := id; started_at := Some now;
                         completed_at := None |} ])%list |})
      end
  end.

(** [UPDATE quest_progress SET completed_at = ? WHERE user_id = ? AND
    quest_id = ?] *)
Definition set_completed (user_id id now : string) (p : ProgressRow) : ProgressRow :=
  if bool_decide (progress_user p = user_id ∧ progress_quest p = id)
  then {| progress_id := progress_id p; progress_user := progress_user p;
          progress_quest := progress_quest p; started_at := started_at p;
          completed_at := Some now |}
  else p.

Definition complete_quest (tables : Tables) (user_id id now : string)
    : bool * Tables :=
  match select_progress tables user_id id with
  | [] => (false, tables)
  | p :: _ =>
      if truthy (completed_at p) then (false, tables)
      else
        (true,
         {| quest := quest tables;
            quest_progress :=
              map (set_completed user_id id now) (quest_progress tables) |})
  end.

Definition is_quest_completed (tables : Tables) (user_id id : string) : bool :=
  match select_progress tables user_id id with
  | [] => false
  | p :: _ => truthy (completed_at p)
  end.

Definition is_quest_started (tables : Tables) (user_id id : string) : bool :=
  match select_progress tables user_id id with
  | [] => false
  | _ :: _ => true
  end.

(** The ids that the query of [IndieGraph.get_next_skills] selects: the
    quests joined to the progress rows of the user whose [completed_at]
    is not [NULL]. *)
Definition completed_quest_ids (tables : Tables) (user_id : string) : list string :=
  flat_map
    (fun p => map quest_id (select_quest tables (progress_quest p)))
    (filter (fun p => progress_user p = user_id ∧ completed_at p ≠ None)
            (quest_progress tables)).

(** Three of the seeded quests, nobody having started any. *)
Definition seeded : Tables :=
  {| quest :=
       [ Build_QuestRow "quest_laundry" "Do Your Own Laundry"
           "Learn to sort, wash, dry, and fold your clothes independently"
           1 50 45 "Dirty clothes, laundry detergent, washing machine";
         Build_QuestRow "quest_meal_prep" "Cook a $10 Meal"
           "Plan and cook a nutritious meal within a $10 budget"
           2 75 60 "Ingredients, cooking utensils, recipe";
         Build_QuestRow "quest_solo_transit" "First Solo Transit Ride"
           "Plan and take a public transit trip independently (simulated)"
           3 100 90 "Transit card, route planning app" ];
     quest_progress := [] |}.

End Quests.

(* ===================================================================== *)
(** * Properties of the Python built-ins *)
(* ===================================================================== *)

Module PyFacts.

Section sort_desc.
Context {A : Type} (key : A → Z).

Lemma insert_desc_perm x l : Py.insert_desc key x l ≡ₚ x :: l.
Proof.
  induction l as [|y l IH]; simpl; [done|].
  destruct (key y <=? key x); [done|].
  rewrite IH. apply Permutation_swap.
Qed.

Lemma sort_desc_perm l : Py.sort_desc key l ≡ₚ l.
Proof.
  induction l as [|x l IH]; simpl; [done|].
  unfold Py.sort_desc in *. simpl. rewrite insert_desc_perm. by f_equiv.
Qed.

Lemma insert_desc_sorted x l :
  StronglySorted (λ a b, key b ≤ key a) l →
  StronglySorted (λ a b, key b ≤ key a) (Py.insert_desc key x l).
Proof.
  induction 1 as [|y l Hs IH Hy]; simpl; [repeat constructor|].
  destruct (key y <=? key x) eqn:Hle.
  - apply Z.leb_le in Hle. constructor; [by constructor|].
    constructor; [done|]. eapply Forall_impl; [exact Hy|]. simpl. lia.
  - apply Z.leb_gt in Hle. constructor; [done|].
    rewrite insert_desc_perm. constructor; [lia | done].
Qed.

Lemma sort_desc_sorted l :
  StronglySorted (λ a b, key b ≤ key a) (Py.sort_desc key l).
Proof.
  induction l as [|x l IH]; [constructor|].
  unfold Py.sort_desc in *. simpl. by apply insert_desc_sorted.
Qed.

(** Stability: the elements of any one key keep their order. *)
Lemma insert_desc_stable k x l :
  StronglySorted (λ a b, key b ≤ key a) l →
  filter (λ a, key a = k) (Py.insert_desc key x l)
  = filter (λ a, key a = k) (x :: l).
Proof.
  induction 1 as [|y l Hs IH Hy]; simpl; [done|].
  destruct (key y <=? key x) eqn:Hle; [done|].
  apply Z.leb_gt in Hle.
  rewrite filter_cons. rewrite IH. rewrite !filter_cons.
  destruct (decide (key y = k)) as [Hyk|Hyk]; [|done].
  destruct (decide (key x = k)) as [Hxk|Hxk]; [lia | done].
Qed.

Lemma sort_desc_stable k l :
  filter (λ a, key a = k) (Py.sort_desc key l) = filter (λ a, key a = k) l.
Proof.
  induction l as [|x l IH]; [done|].
  unfold Py.sort_desc in *. simpl.
  rewrite insert_desc_stable by apply sort_desc_sorted.
  rewrite !filter_cons. by rewrite IH.
Qed.

End sort_desc.

Lemma slice_to_length {A} (l : list A) limit :
  0 ≤ limit → Z.of_nat (length (Py.slice_to l limit)) ≤ limit.
Proof.
  intros H. unfold Py.slice_to. rewrite (proj2 (Z.leb_le _ _) H).
  rewrite length_take. lia.
Qed.

Lemma slice_to_sublist {A} (l : list A) limit :
  ∃ n, Py.slice_to l limit = take n l.
Proof. unfold Py.slice_to. destruct (0 <=? limit); eauto. Qed.

End PyFacts.

(* ===================================================================== *)
(** * Properties of the skill graph *)
(* ===================================================================== *)

Module IndieGraphFacts.
Import IndieGraph PyFacts.

(** ** Lookups *)

Lemma get_node_by_id_Some g id n :
  get_node_by_id g id = Some n → n ∈ nodes g ∧ node_id n = id.
Proof.
  unfold get_node_by_id. intros H. apply find_some in H as [Hin Heq].
  split.
  - by apply list_elem_of_In.
  - by apply bool_decide_eq_true in Heq.
Qed.

Lemma get_prerequisites_absent g id :
  get_node_by_id g id = None → get_prerequisites g id = [].
Proof. unfold get_prerequisites. by intros ->. Qed.

Lemma unavailable_in_catalog g id completed :
  is_available g id completed = false →
  ∃ n, get_node_by_id g id = Some n ∧ get_prerequisites g id = prerequisites n.
Proof.
  unfold is_available, get_prerequisites.
  destruct (get_node_by_id g id) as [n|]; [eauto | discriminate].
Qed.

Lemma is_available_spec g id completed :
  is_available g id completed = true
  ↔ ∀ prereq, prereq ∈ get_prerequisites g id → prereq ∈ completed.
Proof.
  unfold is_available. rewrite forallb_forall. split.
  - intros H p Hp. apply list_elem_of_In, H in Hp.
    by apply bool_decide_eq_true in Hp.
  - intros H p Hp. apply bool_decide_eq_true, H. by apply list_elem_of_In.
Qed.

(** ** Availability of an absent node *)

(** C2, as stated, fails: "skydiving" is not in the reference catalog,
    and [is_available] answers [true] for it, not [false]. *)
Lemma is_available_absent_not_false :
  get_node_by_id reference "skydiving" = None
  ∧ is_available reference "skydiving" ∅ ≠ false.
Proof. split; [reflexivity | vm_compute; discriminate]. Qed.

(** C2, amended: for every skill id that is absent from the catalog and
    every completed set, [is_available] returns [true]: the
    prerequisite list of an absent node is empty, so the test over it
    holds vacuously. *)
Theorem is_available_absent g id completed :
  get_node_by_id g id = None → is_available g id completed = true.
Proof.
  intros Habs. unfold is_available.
  by rewrite (get_prerequisites_absent _ _ Habs).
Qed.

Lemma is_available_absent_witness :
  get_node_by_id reference "skydiving" = None
  ∧ is_available reference "skydiving" {["basic_laundry"]} = true.
Proof.
  split; [reflexivity|].
  apply (is_available_absent reference "skydiving" {["basic_laundry"]}).
  reflexivity.
Defined.

(** ** Coverage *)

(** What [calculate_coverage] accumulates: the ids of the nodes other
    than [id], outside [completed], that are available under
    [completed ∪ {id}]. *)
Lemma elem_of_potential_skills g id completed x :
  x ∈ potential_skills g id completed
  ↔ ∃ n, n ∈ nodes g ∧ node_id n = x ∧ (x ∉ completed) ∧ (x ≠ id)
         ∧ is_available g x (completed ∪ {[id]}) = true.
Proof.
  unfold potential_skills.
  assert (∀ ns (acc : gset string),
    x ∈ foldl (λ acc n,
                if bool_decide (node_id n ∉ completed)
                   && bool_decide (node_id n ≠ id)
                   && is_available g (node_id n) (completed ∪ {[id]})
                then acc ∪ {[node_id n]} else acc) acc ns
    ↔ x ∈ acc ∨ ∃ n, n ∈ ns ∧ node_id n = x ∧ (x ∉ completed) ∧ (x ≠ id)
                     ∧ is_available g x (completed ∪ {[id]}) = true) as Hgen.
  { induction ns as [|m ns IH]; intros acc; simpl.
    - split; [auto|]. intros [?|(n & Hn & _)]; [done|]. by apply elem_of_nil in Hn.
    - rewrite IH. split.
      + intros [Hacc|(n & Hn & Hrest)].
        * destruct (bool_decide (node_id m ∉ completed)
                    && bool_decide (node_id m ≠ id)
                    && is_available g (node_id m) (completed ∪ {[id]})) eqn:Hc;
            [|auto].
          apply elem_of_union in Hacc as [?|Hx]; [auto|].
          apply elem_of_singleton in Hx. subst x.
          apply andb_true_iff in Hc as [Hc Hav].
          apply andb_true_iff in Hc as [Hc1 Hc2].
          apply bool_decide_eq_true in Hc1, Hc2.
          right. exists m. split; [apply elem_of_cons; auto | auto].
        * right. exists n. split; [apply elem_of_cons; auto | auto].
      + intros [Hacc|(n & Hn & Hid & Hc1 & Hc2 & Hav)].
        * left. destruct (_ && _); [apply elem_of_union; auto | auto].
        * apply elem_of_cons in Hn as [->|Hn].
          -- left. rewrite Hid. rewrite Hav.
             rewrite !bool_decide_eq_true_2 by done. simpl.
             apply elem_of_union_r, elem_of_singleton. done.
          -- right. exists n. auto. }
  rewrite Hgen. split; [intros [H|H]; [by apply not_elem_of_empty in H | done] | auto].
Qed.

(** A completed skill has coverage [0]. *)
Lemma calculate_coverage_completed g id completed :
  id ∈ completed → calculate_coverage g id completed = 0.
Proof.
  intros H. unfold calculate_coverage. by rewrite bool_decide_eq_true_2.
Qed.

(** Every newly unlocked skill is counted, but not only those. *)
Lemma newly_unlocked_subseteq g id completed :
  newly_unlocked g id completed ⊆ potential_skills g id completed.
Proof.
  intros x Hx. unfold newly_unlocked in Hx.
  apply elem_of_list_to_set, list_elem_of_fmap in Hx as (n & -> & Hn).
  apply list_elem_of_filter in Hn as [(Hne & Hnc & _ & Hav) Hin].
  apply elem_of_potential_skills. exists n. auto.
Qed.

(** C3, on the reference catalog with nothing completed: completing
    "basic_laundry" makes no further skill available (its only
    dependent, "emergency_preparedness", also needs "budget_tracking"),
    yet [calculate_coverage] returns [3]: it counts "meal_planning",
    "budget_tracking" and "time_management", which were available
    already. *)
Theorem calculate_coverage_counts_available_already :
  calculate_coverage reference "basic_laundry" ∅ = 3
  ∧ potential_skills reference "basic_laundry" ∅
    = {["meal_planning"; "budget_tracking"; "time_management"]}
  ∧ is_available reference "meal_planning" ∅ = true
  ∧ is_available reference "budget_tracking" ∅ = true
  ∧ is_available reference "time_management" ∅ = true
  ∧ newly_unlocked reference "basic_laundry" ∅ = ∅
  ∧ Z.of_nat (size (newly_unlocked reference "basic_laundry" ∅)) = 0.
Proof. repeat split; by vm_compute. Qed.

(** ** Recommendations *)

(** C1, as stated, fails: for a user without completed quests the three
    recommended nodes are not the first three prerequisite-free nodes
    of the catalog. *)
Lemma get_next_skills_not_catalog_order :
  Db.completed_quest_ids Db.fresh_storage "teen" = []
  ∧ map rec_node (get_next_skills reference Db.fresh_storage "teen" 3)
    ≠ basic_skills_in_catalog_order reference 3.
Proof.
  split; [reflexivity|]. intros H.
  apply (f_equal (map node_id)) in H. vm_compute in H. discriminate.
Qed.

(** C1, amended: on the reference catalog, [get_next_skills] for a user
    without completed quests and limit 3 returns three scored nodes
    whose prerequisite lists are empty, ranked by descending combined
    score and not in catalog order: "time_management",
    "budget_tracking", "meal_planning". *)
Theorem get_next_skills_new_user db user_id :
  Db.completed_quest_ids db user_id = [] →
  map (λ r, node_id (rec_node r)) (get_next_skills reference db user_id 3)
  = ["time_management"; "budget_tracking"; "meal_planning"]
  ∧ Forall (λ r, prerequisites (rec_node r) = [])
           (get_next_skills reference db user_id 3)
  ∧ Forall (λ r, ∃ n c v s, r = Scored n c v s)
           (get_next_skills reference db user_id 3)
  ∧ StronglySorted (λ r1 r2, rec_score r2 ≤ rec_score r1)
                   (get_next_skills reference db user_id 3).
Proof.
  intros Hnone. unfold get_next_skills. rewrite Hnone.
  change (list_to_set []) with (∅ : gset string).
  set (result := next_skills_of reference ∅ 3).
  vm_compute in result. subst result.
  split; [reflexivity|].
  split; [repeat constructor|].
  split; [repeat constructor; eauto|].
  repeat constructor; simpl; lia.
Qed.

Lemma get_next_skills_new_user_witness :
  map (λ r, node_id (rec_node r))
      (get_next_skills reference Db.fresh_storage "teen" 3)
  = ["time_management"; "budget_tracking"; "meal_planning"].
Proof.
  apply (get_next_skills_new_user Db.fresh_storage "teen"). reflexivity.
Defined.

(** ** The path search *)

(** C9: on the reference catalog, the path to "first_aid" with nothing
    completed is the chain "first_aid", "emergency_preparedness",
    "basic_laundry": it is not empty, starts at "first_aid", passes
    through "emergency_preparedness" and ends in a node, one of
    "basic_laundry" and "budget_tracking", that is available with
    nothing completed. *)
Theorem get_skill_path_first_aid :
  ∃ path final,
    get_skill_path reference "first_aid" ∅ = Some path
    ∧ path ≠ []
    ∧ map (option_map node_id) path
      = [Some "first_aid"; Some "emergency_preparedness"; Some "basic_laundry"]
    ∧ head path = Some (get_node_by_id reference "first_aid")
    ∧ get_node_by_id reference "emergency_preparedness" ∈ path
    ∧ last path = Some (Some final)
    ∧ final ∈ nodes reference
    ∧ (node_id final = "basic_laundry" ∨ node_id final = "budget_tracking")
    ∧ is_available reference (node_id final) ∅ = true
    ∧ prerequisites final = [].
Proof.
  set (r := get_skill_path reference "first_aid" ∅).
  vm_compute in r.
  match eval unfold r in r with
  | Some ?p =>
      match eval vm_compute in (last p) with
      | Some (Some ?n) => exists p, n
      end
  end.
  subst r.
  split; [reflexivity|]. split; [discriminate|].
  split; [reflexivity|]. split; [reflexivity|].
  split; [vm_compute; apply list_elem_of_further, list_elem_of_here|].
  split; [reflexivity|].
  split; [vm_compute; apply list_elem_of_here|].
  split; [left; reflexivity|].
  split; reflexivity.
Qed.

(** ** Termination of the path search *)

Lemma prerequisite_count_cons n ns :
  prerequisite_count (n :: ns)
  = (length (prerequisites n) + prerequisite_count ns)%nat.
Proof. reflexivity. Qed.

Lemma prerequisite_count_filter_le (P : Node → Prop) `{!∀ n, Decision (P n)} ns :
  (prerequisite_count (filter P ns) ≤ prerequisite_count ns)%nat.
Proof.
  induction ns as [|m ns IH]; [done|].
  rewrite filter_cons. destruct (decide (P m));
    rewrite ?prerequisite_count_cons; lia.
Qed.

Lemma prerequisite_count_filter_mono (P Q : Node → Prop)
    `{!∀ n, Decision (P n)} `{!∀ n, Decision (Q n)} ns :
  (∀ n, Q n → P n) →
  (prerequisite_count (filter Q ns) ≤ prerequisite_count (filter P ns))%nat.
Proof.
  intros HQP. induction ns as [|m ns IH]; [done|].
  rewrite !filter_cons. destruct (decide (Q m)) as [HQ|HQ].
  - rewrite decide_True by auto. rewrite !prerequisite_count_cons. lia.
  - destruct (decide (P m)); rewrite ?prerequisite_count_cons; lia.
Qed.

(** Visiting [cur] takes the prerequisite entries of the nodes named
    [cur] out of the potential. *)
Lemma prerequisite_count_visit (visited : gset string) cur n ns :
  n ∈ ns → node_id n = cur → cur ∉ visited →
  (prerequisite_count (filter (fun m => node_id m ∉ visited ∪ {[cur]}) ns)
   + length (prerequisites n)
   ≤ prerequisite_count (filter (fun m => node_id m ∉ visited) ns))%nat.
Proof.
  intros Hin Hid Hcur. induction ns as [|m ns IH]; [by apply elem_of_nil in Hin|].
  apply elem_of_cons in Hin as [Heq|Hin].
  - subst m.
    rewrite !filter_cons.
    rewrite (decide_False (P := node_id n ∉ visited ∪ {[cur]})).
    2:{ intros Hn. apply Hn, elem_of_union_r, elem_of_singleton, Hid. }
    rewrite decide_True by (by rewrite Hid).
    rewrite prerequisite_count_cons.
    pose proof (prerequisite_count_filter_mono
                  (fun m => node_id m ∉ visited)
                  (fun m => node_id m ∉ visited ∪ {[cur]}) ns) as Hmono.
    assert (∀ m, node_id m ∉ visited ∪ {[cur]} → node_id m ∉ visited) as Himp.
    { intros m Hm Hv. apply Hm, elem_of_union_l, Hv. }
    specialize (Hmono Himp). lia.
  - specialize (IH Hin). rewrite !filter_cons.
    destruct (decide (node_id m ∉ visited ∪ {[cur]})) as [Hm|Hm].
    + rewrite decide_True.
      2:{ intros Hv. apply Hm, elem_of_union_l, Hv. }
      rewrite !prerequisite_count_cons. lia.
    + destruct (decide (node_id m ∉ visited));
        rewrite ?prerequisite_count_cons; lia.
Qed.

Lemma unmet_prerequisites_length g completed visited cur path :
  (length (unmet_prerequisites g completed visited cur path)
   ≤ length (get_prerequisites g cur))%nat.
Proof.
  unfold unmet_prerequisites. rewrite length_map. apply length_filter.
Qed.

(** A pass that stays in the loop either drops an already visited entry
    of the queue, or adds a node to [visited] that was not in it and
    appends at most its prerequisites: the potential decreases. *)
Lemma bfs_step_decreases g completed st st' :
  bfs_step g completed st = Continue st' →
  (potential g st' < potential g st)%nat.
Proof.
  destruct st as [queue visited]. unfold bfs_step, potential. simpl.
  destruct queue as [|[cur path] queue]; [discriminate|].
  case_bool_decide as Hvis.
  - intros [= <-]. simpl. lia.
  - destruct (is_available g cur completed) eqn:Hav; [discriminate|].
    intros [= <-]. simpl.
    apply unavailable_in_catalog in Hav as (n & Hn & Hpre).
    apply get_node_by_id_Some in Hn as [Hin Hid].
    rewrite length_app.
    pose proof (unmet_prerequisites_length g completed (visited ∪ {[cur]}) cur path) as Hlen.
    rewrite Hpre in Hlen.
    pose proof (prerequisite_count_visit visited cur n (nodes g) Hin Hid Hvis).
    lia.
Qed.

(** The set [visited] only grows, by the popped skill, and only when
    that skill was not in it. *)
Lemma bfs_step_visited g completed queue visited queue' visited' :
  bfs_step g completed (queue, visited) = Continue (queue', visited') →
  ∃ cur path rest,
    queue = (cur, path) :: rest
    ∧ ((cur ∈ visited ∧ visited' = visited ∧ queue' = rest)
       ∨ ((cur ∉ visited) ∧ visited' = visited ∪ {[cur]})).
Proof.
  unfold bfs_step. simpl.
  destruct queue as [|[cur path] rest]; [discriminate|].
  intros H. exists cur, path, rest. split; [done|].
  case_bool_decide as Hvis.
  - injection H as <- <-. by left.
  - destruct (is_available g cur completed); [discriminate|].
    injection H as <- <-. by right.
Qed.

Lemma bfs_loop_returns g completed fuel st :
  (potential g st < fuel)%nat →
  ∃ path, bfs_loop fuel g completed st = Some path.
Proof.
  revert st. induction fuel as [|fuel IH]; intros st Hlt; [lia|].
  simpl. destruct (bfs_step g completed st) as [path|st'] eqn:Hstep; [eauto|].
  apply IH. apply bfs_step_decreases in Hstep. lia.
Qed.

Lemma bfs_loop_more_fuel g completed fuel extra st path :
  bfs_loop fuel g completed st = Some path →
  bfs_loop (fuel + extra) g completed st = Some path.
Proof.
  revert st. induction fuel as [|fuel IH]; intros st; [discriminate|].
  simpl. destruct (bfs_step g completed st); [done|]. apply IH.
Qed.

Lemma potential_initial g target :
  (potential g ([(target, [])], ∅) < skill_path_fuel g)%nat.
Proof.
  unfold potential, skill_path_fuel. cbn [fst snd length].
  match goal with
  | |- context [prerequisite_count (@filter _ _ _ ?P ?d ?l)] =>
      pose proof (@prerequisite_count_filter_le P d l)
  end.
  lia.
Qed.

(** C10: for every catalog, cyclic or not, every target and every
    completed set, the search of [get_skill_path] leaves its loop and
    returns a path: within [skill_path_fuel g] passes (two more than
    the number of prerequisite entries of the catalog), and with the
    same result however many more passes are allowed. *)
Theorem get_skill_path_terminates g target completed extra :
  ∃ path,
    get_skill_path g target completed = Some path
    ∧ get_skill_path_fuel (skill_path_fuel g + extra) g target completed
      = Some path.
Proof.
  unfold get_skill_path, get_skill_path_fuel.
  case_bool_decide; [eauto|].
  destruct (bfs_loop_returns g completed (skill_path_fuel g) ([(target, [])], ∅))
    as [path Hpath]; [apply potential_initial|].
  exists path. split; [done|]. by apply bfs_loop_more_fuel.
Qed.

(** On the two-node cycle the search visits both nodes, finds neither
    available, and returns the empty path. *)
Example get_skill_path_cyclic :
  get_skill_path cyclic "a" ∅ = Some []
  ∧ is_available cyclic "a" ∅ = false
  ∧ is_available cyclic "b" ∅ = false.
Proof. repeat split; by vm_compute. Qed.


(** ** Availability *)

(** X1: completing more skills never locks a skill: if [id] is available
    under [completed] it is available under every larger set. *)
Theorem is_available_monotone g id (completed completed' : gset string) :
  completed ⊆ completed' →
  is_available g id completed = true →
  is_available g id completed' = true.
Proof.
  intros Hsub Hav. apply is_available_spec. intros p Hp.
  apply Hsub. by apply (proj1 (is_available_spec g id completed) Hav).
Qed.

Lemma is_available_monotone_witness :
  is_available reference "emergency_preparedness"
    {["basic_laundry"; "budget_tracking"; "meal_planning"]} = true.
Proof.
  apply (is_available_monotone reference "emergency_preparedness"
           {["basic_laundry"; "budget_tracking"]}).
  - apply (bool_decide_unpack _). by vm_compute.
  - reflexivity.
Defined.

(** ** Adjacency *)

Lemma empty_adjacency_lookup ns k :
  empty_adjacency ns !! k
  = if bool_decide (k ∈ map node_id ns) then Some [] else None.
Proof.
  unfold empty_adjacency.
  assert (∀ (adj : gmap string (list string)),
            foldl (λ adj n, <[node_id n := []]> adj) adj ns !! k
            = if bool_decide (k ∈ map node_id ns) then Some [] else adj !! k) as Hgen.
  { induction ns as [|n ns IH]; intros adj.
    - cbn [foldl map]. case_bool_decide as Hin; [|done].
      by apply elem_of_nil in Hin.
    - cbn [foldl map]. rewrite IH. case_bool_decide as Hin.
      + rewrite bool_decide_eq_true_2; [done|]. by apply elem_of_cons; right.
      + destruct (decide (node_id n = k)) as [<-|Hne].
        * rewrite lookup_insert_eq. rewrite bool_decide_eq_true_2; [done|].
          apply elem_of_cons; by left.
        * rewrite lookup_insert_ne by done.
          rewrite bool_decide_eq_false_2; [done|].
          intros [?|?]%elem_of_cons; congruence. }
  rewrite Hgen. by rewrite lookup_empty.
Qed.

Lemma append_edges_lookup (src dst : Edge → string) es
    (adj : gmap string (list string)) k :
  foldl (λ adj e, append_if_present (src e) (dst e) adj) adj es !! k
  = (λ l, l ++ map dst (filter (λ e, src e = k) es))%list <$> adj !! k.
Proof.
  revert adj. induction es as [|e es IH]; intros adj; simpl.
  - destruct (adj !! k); simpl; [by rewrite app_nil_r | done].
  - rewrite IH. unfold append_if_present. rewrite filter_cons.
    destruct (decide (src e = k)) as [<-|Hne].
    + destruct (adj !! src e) as [l|] eqn:Hl.
      * rewrite lookup_insert_eq. simpl. by rewrite <- app_assoc.
      * by rewrite Hl.
    + destruct (adj !! src e) as [l|] eqn:Hl; [|done].
      by rewrite lookup_insert_ne.
Qed.

(** X2: on a graph built by [init], the dependents of a catalog id are
    the targets of the edges leaving it, in edge order, and the reverse
    index holds the sources of the edges entering it; an id outside the
    catalog has no entry in either index, so the edges that mention it
    at that end are dropped. *)
Theorem adjacency_init ns es id :
  get_dependents (init (ns, es)) id
  = (if bool_decide (id ∈ map node_id ns)
     then map edge_to (filter (λ e, edge_from e = id) es)
     else [])
  ∧ reverse_adjacency (init (ns, es)) !! id
    = (if bool_decide (id ∈ map node_id ns)
       then Some (map edge_from (filter (λ e, edge_to e = id) es))
       else None).
Proof.
  unfold get_dependents, init. simpl.
  unfold _build_adjacency_list, _build_reverse_adjacency.
  rewrite !append_edges_lookup, !empty_adjacency_lookup.
  by case_bool_decide.
Qed.

(** ** Coverage *)

Lemma potential_skills_size g id completed :
  (size (potential_skills g id completed) ≤ length (nodes g))%nat.
Proof.
  unfold potential_skills.
  assert (∀ ns (acc : gset string),
    (size (foldl (λ acc n,
                  if bool_decide (node_id n ∉ completed)
                     && bool_decide (node_id n ≠ id)
                     && is_available g (node_id n) (completed ∪ {[id]})
                  then acc ∪ {[node_id n]} else acc) acc ns)
     ≤ size acc + length ns)%nat) as Hgen.
  { induction ns as [|m ns IH]; intros acc; simpl; [lia|].
    etrans; [apply IH|].
    destruct (_ && _); [|lia].
    pose proof (size_union_alt acc {[node_id m]}) as Hsz.
    assert (size ({[node_id m]} ∖ acc : gset string) ≤ 1)%nat.
    { etrans; [apply (subseteq_size _ {[node_id m]})|by rewrite size_singleton].
      intros y Hy. by apply elem_of_difference in Hy as [? _]. }
    lia. }
  specialize (Hgen (nodes g) ∅). by rewrite size_empty in Hgen.
Qed.

(** X3: the coverage of a skill lies between [0] and the number of
    catalog nodes, and the skills it counts are catalog skills other than
    [id], not completed, and available once [id] is completed. *)
Theorem calculate_coverage_bounds g id completed :
  0 ≤ calculate_coverage g id completed ≤ Z.of_nat (length (nodes g))
  ∧ (∀ x, x ∈ potential_skills g id completed →
          x ≠ id ∧ (x ∉ completed) ∧ x ∈ map node_id (nodes g)
          ∧ is_available g x (completed ∪ {[id]}) = true).
Proof.
  split.
  - unfold calculate_coverage. case_bool_decide; [lia|].
    pose proof (potential_skills_size g id completed). lia.
  - intros x (n & Hn & Hid & Hc & Hne & Hav)%elem_of_potential_skills.
    repeat split; try done. subst x. by apply list_elem_of_fmap_2.
Qed.


(** ** Recommendations *)

Lemma elem_of_get_available_skills g completed n :
  n ∈ get_available_skills g completed
  ↔ n ∈ nodes g ∧ (node_id n ∉ completed)
    ∧ is_available g (node_id n) completed = true.
Proof.
  unfold get_available_skills. rewrite list_elem_of_filter. tauto.
Qed.

Lemma elem_of_slice_to {A} (x : A) l limit :
  x ∈ Py.slice_to l limit → x ∈ l.
Proof.
  destruct (slice_to_sublist l limit) as [n ->].
  apply subseteq_take.
Qed.

(** With a limit that is not negative, [get_next_skills] returns at most
    [limit] recommendations. *)
Lemma get_next_skills_at_most_limit g db user_id limit :
  0 ≤ limit →
  Z.of_nat (length (get_next_skills g db user_id limit)) ≤ limit.
Proof.
  intros Hlimit. unfold get_next_skills, next_skills_of.
  destruct (get_available_skills _ _); by apply slice_to_length.
Qed.

(** X4: when some skill is available, every recommendation is a catalog
    node that is available and not completed, returned with its
    centrality, its coverage and their sum as combined score. *)
Theorem get_next_skills_scored g db user_id limit (completed : gset string) :
  completed = list_to_set (Db.completed_quest_ids db user_id) →
  get_available_skills g completed ≠ [] →
  ∀ r, r ∈ get_next_skills g db user_id limit →
    ∃ n, r = Scored n (calculate_centrality g (node_id n))
                 (calculate_coverage g (node_id n) completed)
                 (calculate_centrality g (node_id n)
                  + calculate_coverage g (node_id n) completed)
         ∧ n ∈ nodes g
         ∧ (node_id n ∉ completed)
         ∧ is_available g (node_id n) completed = true.
Proof.
  intros -> Hne r Hr. unfold get_next_skills, next_skills_of in Hr.
  set (completed := list_to_set _) in *.
  destruct (get_available_skills g completed) as [|a l] eqn:Hav; [done|].
  apply elem_of_slice_to in Hr. rewrite sort_desc_perm in Hr.
  apply list_elem_of_fmap in Hr as (n & -> & Hn).
  rewrite <- Hav in Hn. apply elem_of_get_available_skills in Hn.
  exists n. by split.
Qed.

(** X5: when some skill is available, the recommendations are the first
    [limit] entries of a ranking of all available skills by descending
    combined score, in which skills of equal score keep their catalog
    order. *)
Theorem get_next_skills_ranked g db user_id limit (completed : gset string) :
  completed = list_to_set (Db.completed_quest_ids db user_id) →
  get_available_skills g completed ≠ [] →
  ∃ ranked,
    get_next_skills g db user_id limit = Py.slice_to ranked limit
    ∧ ranked ≡ₚ map (score_skill g completed) (get_available_skills g completed)
    ∧ StronglySorted (λ r1 r2, rec_score r2 ≤ rec_score r1) ranked
    ∧ ∀ k, filter (λ r, rec_score r = k) ranked
           = filter (λ r, rec_score r = k)
               (map (score_skill g completed) (get_available_skills g completed)).
Proof.
  intros -> Hne. set (completed := list_to_set _) in *.
  exists (Py.sort_desc rec_score
            (map (score_skill g completed) (get_available_skills g completed))).
  split; [|split; [|split]].
  - unfold get_next_skills, next_skills_of. fold completed.
    by destruct (get_available_skills g completed).
  - apply sort_desc_perm.
  - apply sort_desc_sorted.
  - intros k. apply sort_desc_stable.
Qed.

Lemma get_next_skills_scored_witness :
  ∃ n, n ∈ nodes reference
       ∧ is_available reference (node_id n)
           (list_to_set (Db.completed_quest_ids Db.fresh_storage "teen")) = true.
Proof.
  destruct (get_next_skills_scored reference Db.fresh_storage "teen" 3
              (list_to_set (Db.completed_quest_ids Db.fresh_storage "teen")))
    with (r := score_skill reference
                 (list_to_set (Db.completed_quest_ids Db.fresh_storage "teen"))
                 {| node_id := "time_management"; title := "Time Management";
                    description := "Plan and prioritize daily activities";
                    difficulty := 2; category := "planning";
                    prerequisites := [] |})
    as (n & _ & Hin & _ & Hav).
  - reflexivity.
  - vm_compute. discriminate.
  - vm_compute. apply list_elem_of_here.
  - exists n. split; [exact Hin | exact Hav].
Defined.

Lemma get_next_skills_ranked_witness :
  ∃ ranked,
    get_next_skills reference Db.fresh_storage "teen" 3 = Py.slice_to ranked 3
    ∧ StronglySorted (λ r1 r2, rec_score r2 ≤ rec_score r1) ranked.
Proof.
  destruct (get_next_skills_ranked reference Db.fresh_storage "teen" 3
              (list_to_set (Db.completed_quest_ids Db.fresh_storage "teen")))
    as (ranked & Hres & _ & Hsorted & _).
  - reflexivity.
  - vm_compute. discriminate.
  - exists ranked. split; [exact Hres | exact Hsorted].
Defined.

Lemma get_node_by_id_NoDup g n :
  NoDup (map node_id (nodes g)) → n ∈ nodes g →
  get_node_by_id g (node_id n) = Some n.
Proof.
  unfold get_node_by_id. induction (nodes g) as [|m ns IH]; intros Hnd Hin.
  - by apply elem_of_nil in Hin.
  - simpl. apply NoDup_cons in Hnd as [Hm Hnd].
    case_bool_decide as Heq.
    + apply elem_of_cons in Hin as [->|Hin]; [done|].
      exfalso. apply Hm. rewrite Heq. by apply list_elem_of_fmap_2.
    + apply elem_of_cons in Hin as [->|Hin]; [done|]. by apply IH.
Qed.

(** X6: on a catalog without duplicate ids, when no skill is available
    the recommendations are prerequisite-free nodes that the user has
    completed already. *)
Theorem get_next_skills_fallback g db user_id limit (completed : gset string) :
  completed = list_to_set (Db.completed_quest_ids db user_id) →
  NoDup (map node_id (nodes g)) →
  get_available_skills g completed = [] →
  ∀ r, r ∈ get_next_skills g db user_id limit →
    ∃ n, r = Plain n ∧ n ∈ nodes g ∧ prerequisites n = []
         ∧ node_id n ∈ completed.
Proof.
  intros -> Hnd Hnone r Hr. unfold get_next_skills, next_skills_of in Hr.
  set (completed := list_to_set _) in *. rewrite Hnone in Hr.
  apply elem_of_slice_to, list_elem_of_fmap in Hr as (n & -> & Hn).
  apply list_elem_of_filter in Hn as [Hpre Hin].
  exists n. repeat split; try done.
  destruct (decide (node_id n ∈ completed)) as [|Hnc]; [done|].
  assert (n ∈ get_available_skills g completed) as Hav.
  { apply elem_of_get_available_skills. repeat split; try done.
    unfold is_available, get_prerequisites.
    by rewrite (get_node_by_id_NoDup g n Hnd Hin), Hpre. }
  rewrite Hnone in Hav. by apply elem_of_nil in Hav.
Qed.


Lemma get_next_skills_fallback_witness :
  ∃ n, head (get_next_skills reference all_completed_storage "teen" 3) = Some (Plain n)
       ∧ prerequisites n = []
       ∧ node_id n ∈ (list_to_set (map node_id (nodes reference)) : gset string).
Proof.
  destruct (get_next_skills_fallback reference all_completed_storage "teen" 3
              (list_to_set (map node_id (nodes reference))))
    with (r := Plain {| node_id := "basic_laundry"; title := "Basic Laundry";
                        description := "Sort, wash, dry, and fold clothes";
                        difficulty := 1; category := "household";
                        prerequisites := [] |})
    as (n & Hr & _ & Hpre & Hdone).
  - reflexivity.
  - apply (bool_decide_unpack _). by vm_compute.
  - by vm_compute.
  - vm_compute. apply list_elem_of_here.
  - exists n. injection Hr as <-. by repeat split.
Defined.

(** ** The path search: what a returned path is *)

Lemma prerequisite_chain_snoc g ids a b :
  prerequisite_chain g (ids ++ [a]) →
  b ∈ get_prerequisites g a →
  prerequisite_chain g ((ids ++ [a]) ++ [b]).
Proof.
  intros Hch Hb. induction ids as [|i ids IH]; simpl in *.
  - done.
  - destruct Hch as [Hhd Hch]. split; [|by apply IH].
    destruct ids; simpl in *; done.
Qed.

Lemma head_snoc_snoc {A} (ids : list A) a b :
  head ((ids ++ [a]) ++ [b]) = head (ids ++ [a]).
Proof. by destruct ids. Qed.

Lemma bfs_step_queued_chain g target completed st st' :
  Forall (queued_chain g target completed) st.1 →
  bfs_step g completed st = Continue st' →
  Forall (queued_chain g target completed) st'.1.
Proof.
  destruct st as [queue visited]. unfold bfs_step. simpl.
  destruct queue as [|[cur path] queue]; [discriminate|].
  intros [Hcur Hq]%Forall_cons.
  case_bool_decide as Hvis.
  - by intros [= <-].
  - destruct (is_available g cur completed) eqn:Hav; [discriminate|].
    intros [= <-]. simpl. apply Forall_app. split; [done|].
    unfold unmet_prerequisites. apply Forall_forall.
    intros [p path'] Hin.
    apply list_elem_of_fmap in Hin as (q & [= -> ->] & Hq').
    apply list_elem_of_filter in Hq' as [[Hqc _] Hqp].
    destruct Hcur as (ids & Hpath & Hhd & Hch & Hun & Hnc). simpl in *.
    exists (ids ++ [cur])%list. simpl. repeat split.
    + by rewrite Hpath, map_app.
    + by rewrite head_snoc_snoc.
    + by apply prerequisite_chain_snoc.
    + apply Forall_app. split; [done|]. by constructor.
    + apply Forall_app. split; [done|]. by constructor.
Qed.

Lemma bfs_step_return_chain g target completed st path :
  Forall (queued_chain g target completed) st.1 →
  bfs_step g completed st = Return path →
  path = []
  ∨ ∃ ids final,
      path = map (get_node_by_id g) (ids ++ [final])
      ∧ head (ids ++ [final]) = Some target
      ∧ prerequisite_chain g (ids ++ [final])
      ∧ Forall (λ i, is_available g i completed = false) ids
      ∧ is_available g final completed = true
      ∧ Forall (λ i, i ∉ completed) (ids ++ [final]).
Proof.
  destruct st as [queue visited]. unfold bfs_step. simpl.
  destruct queue as [|[cur path'] queue]; [intros _ [= <-]; by left|].
  intros [Hcur _]%Forall_cons.
  case_bool_decide as Hvis; [discriminate|].
  destruct (is_available g cur completed) eqn:Hav; [|discriminate].
  intros [= <-]. right.
  destruct Hcur as (ids & Hpath & Hhd & Hch & Hun & Hnc). simpl in *.
  exists ids, cur. repeat split; try done.
  by rewrite Hpath, map_app.
Qed.

Lemma bfs_loop_chain g target completed fuel st path :
  Forall (queued_chain g target completed) st.1 →
  bfs_loop fuel g completed st = Some path →
  path = []
  ∨ ∃ ids final,
      path = map (get_node_by_id g) (ids ++ [final])
      ∧ head (ids ++ [final]) = Some target
      ∧ prerequisite_chain g (ids ++ [final])
      ∧ Forall (λ i, is_available g i completed = false) ids
      ∧ is_available g final completed = true
      ∧ Forall (λ i, i ∉ completed) (ids ++ [final]).
Proof.
  revert st. induction fuel as [|fuel IH]; intros st Hinv; [discriminate|].
  simpl. destruct (bfs_step g completed st) as [p|st'] eqn:Hstep.
  - intros [= <-]. by eapply bfs_step_return_chain.
  - apply IH. by eapply bfs_step_queued_chain.
Qed.

(** X7: a path returned by [get_skill_path] that is not empty lists the
    nodes of a chain of skills that starts at the target, in which every
    skill is a prerequisite of the one before it, none is completed, the
    last one is available and the others are not. *)
Theorem get_skill_path_is_chain g target completed path :
  get_skill_path g target completed = Some path →
  path ≠ [] →
  ∃ ids final,
    path = map (get_node_by_id g) (ids ++ [final])
    ∧ head (ids ++ [final]) = Some target
    ∧ prerequisite_chain g (ids ++ [final])
    ∧ Forall (λ i, is_available g i completed = false) ids
    ∧ is_available g final completed = true
    ∧ Forall (λ i, i ∉ completed) (ids ++ [final]).
Proof.
  unfold get_skill_path, get_skill_path_fuel.
  case_bool_decide as Hdone; [by intros [= <-]|].
  intros Hloop Hne.
  apply (bfs_loop_chain g target) in Hloop as [->|H]; [done | done |].
  constructor; [|constructor].
  exists []. simpl. repeat split; try done. by repeat constructor.
Qed.

Lemma get_skill_path_is_chain_witness :
  ∃ ids final,
    map (get_node_by_id reference) (ids ++ [final])
    = [get_node_by_id reference "job_interview";
       get_node_by_id reference "financial_planning";
       get_node_by_id reference "budget_tracking"]
    ∧ is_available reference final ∅ = true.
Proof.
  destruct (get_skill_path_is_chain reference "job_interview" ∅
              [get_node_by_id reference "job_interview";
               get_node_by_id reference "financial_planning";
               get_node_by_id reference "budget_tracking"])
    as (ids & final & Hpath & _ & _ & _ & Hav & _).
  - by vm_compute.
  - discriminate.
  - exists ids, final. by split.
Defined.


(** ** The path search: when the path is not empty *)








(** ** The skill tree *)

(** [get_skill_tree] lists the catalog nodes in order with the edges and
    the completed ids, and the skills that [get_available_skills]
    returns are its nodes flagged available and not completed. *)
Lemma get_skill_tree_available g completed :
  map tree_node (tree_nodes (get_skill_tree g completed)) = nodes g
  ∧ tree_edges (get_skill_tree g completed) = edges g
  ∧ (∀ id, id ∈ tree_completed_ids (get_skill_tree g completed) ↔ id ∈ completed)
  ∧ get_available_skills g completed
    = map tree_node
        (filter (λ tn, tree_available tn = true ∧ tree_completed tn = false)
                (tree_nodes (get_skill_tree g completed))).
Proof.
  unfold get_skill_tree, get_available_skills. simpl.
  split; [|split; [done|split]].
  - rewrite <- list_fmap_compose. by rewrite <- (list_fmap_id (nodes g)) at 2.
  - intros id. apply elem_of_elements.
  - induction (nodes g) as [|n ns IH]; [done|].
    cbn [map]. rewrite !filter_cons. simpl.
    destruct (decide ((node_id n ∉ completed)
                      ∧ is_available g (node_id n) completed = true))
      as [[Hnc Hav]|Hno].
    + rewrite decide_True.
      2:{ split; [done|]. by apply bool_decide_eq_false. }
      simpl. by rewrite IH.
    + rewrite decide_False; [done|].
      intros [Hav Hnc]. apply bool_decide_eq_false in Hnc. by apply Hno.
Qed.

End IndieGraphFacts.

(* ===================================================================== *)
(** * Properties of the scenario scoring *)
(* ===================================================================== *)

Module SimFacts.
Import Sim.

(** C6: for every scenario and every list of choices whose length is not
    the number of steps of the scenario, [calculate_score] returns the
    score [0] with an empty breakdown, and raises nothing. *)
Theorem calculate_score_length_mismatch scenario cs :
  length cs ≠ length (steps scenario) →
  calculate_score scenario cs = Py.ret (0, []).
Proof.
  intros Hlen. unfold calculate_score.
  apply Nat.eqb_neq in Hlen. rewrite Hlen.
  by rewrite orb_true_r.
Qed.

Lemma calculate_score_length_mismatch_witness :
  calculate_score shopping_two_steps
    [ {| text := "Make a list and check prices first";
         scores := [("frugality", 90); ("safety", 90); ("time", 80); ("initiative", 70)] |} ]
  = Py.ret (0, []).
Proof.
  apply (calculate_score_length_mismatch shopping_two_steps).
  simpl. lia.
Defined.

(** With one choice per step the scores are averaged and weighted. *)
Example calculate_score_two_steps :
  calculate_score shopping_two_steps
    [ {| text := "Grab a cart and start shopping";
         scores := [("frugality", 20); ("safety", 80); ("time", 60); ("initiative", 40)] |};
      {| text := "Look for cheaper alternatives or sales";
         scores := [("frugality", 95); ("safety", 85); ("time", 70); ("initiative", 80)] |} ]
  = Py.ret (67, [("frugality", 58); ("safety", 82); ("time", 65); ("initiative", 60)]).
Proof. by vm_compute. Qed.

(** A category outside the four known ones is a [KeyError], but only
    when the lengths agree. *)
Example calculate_score_unknown_category :
  calculate_score shopping_two_steps
    [ {| text := "x"; scores := [("luck", 20)] |};
      {| text := "y"; scores := [("luck", 95)] |} ]
  = Py.raise Py.KeyError
  ∧ calculate_score shopping_two_steps [ {| text := "x"; scores := [("luck", 20)] |} ]
    = Py.ret (0, []).
Proof. split; by vm_compute. Qed.

(** ** The accumulation of the category scores *)

Lemma add_to_keys d k v d' :
  add_to d k v = inr d' → map fst d' = map fst d.
Proof.
  revert d'. induction d as [|[k' x] d IH]; intros d'; simpl; [discriminate|].
  case_bool_decide.
  - by intros [= <-].
  - destruct (add_to d k v) as [e|r] eqn:Hr; simpl; [discriminate|].
    intros [= <-]. simpl. f_equal. by apply IH.
Qed.

Lemma add_to_unknown d k v :
  k ∉ map fst d → add_to d k v = Py.raise Py.KeyError.
Proof.
  induction d as [|[k' x] d IH]; simpl; [done|].
  intros Hk. rewrite not_elem_of_cons in Hk. destruct Hk as [Hne Hk].
  rewrite bool_decide_eq_false_2 by done. by rewrite IH.
Qed.

Lemma add_to_known d k v :
  NoDup (map fst d) → k ∈ map fst d →
  add_to d k v
  = Py.ret (map (λ kv, (kv.1, if bool_decide (kv.1 = k) then kv.2 + v else kv.2)) d).
Proof.
  induction d as [|[k' x] d IH]; simpl; [by intros _ ?%elem_of_nil|].
  intros [Hk' Hnd]%NoDup_cons Hk.
  case_bool_decide as Heq.
  - subst k'. unfold Py.ret. do 2 f_equal.
    clear IH Hk. induction d as [|[k'' y] d IH]; simpl; [done|].
    simpl in Hk'. rewrite not_elem_of_cons in Hk'. destruct Hk' as [Hne Hk'].
    apply NoDup_cons in Hnd as [_ Hnd].
    rewrite bool_decide_eq_false_2 by done. f_equal. by apply IH.
  - apply elem_of_cons in Hk as [->|Hk]; [done|].
    rewrite (IH Hnd Hk). done.
Qed.

Lemma add_choice_spec d items :
  NoDup (map fst d) →
  add_choice d items
  = if decide (Forall (λ kv, kv.1 ∈ map fst d) items)
    then Py.ret (map (λ kv, (kv.1, kv.2 + item_total kv.1 items)) d)
    else Py.raise Py.KeyError.
Proof.
  revert d. induction items as [|[k v] items IH]; intros d Hnd; cbn [add_choice].
  - rewrite decide_True by constructor. unfold Py.ret. f_equal.
    rewrite <- (list_fmap_id d) at 1. apply list_fmap_ext.
    intros i [k x] _. simpl. f_equal. lia.
  - destruct (decide (k ∈ map fst d)) as [Hk|Hk].
    + rewrite (add_to_known d k v Hnd Hk). cbn [Py.bind Py.ret].
      assert (map fst (map (λ kv : string * Z,
                 (kv.1, if bool_decide (kv.1 = k) then kv.2 + v else kv.2)) d)
              = map fst d) as Hkeys.
      { rewrite <- list_fmap_compose. by apply list_fmap_ext. }
      rewrite IH by (by rewrite Hkeys). rewrite Hkeys.
      destruct (decide (Forall _ items)) as [Hall|Hno].
      * rewrite decide_True by (by constructor).
        unfold Py.ret. f_equal. rewrite <- list_fmap_compose.
        apply list_fmap_ext.
        intros i [k' x] _. simpl. case_bool_decide as Heq.
        -- subst k'. rewrite bool_decide_eq_true_2 by done. f_equal. lia.
        -- rewrite bool_decide_eq_false_2 by congruence. done.
      * rewrite decide_False; [done|]. by intros [_ Hall]%Forall_cons.
    + rewrite (add_to_unknown d k v Hk). cbn [Py.bind Py.raise].
      rewrite decide_False; [done|]. by intros [? _]%Forall_cons.
Qed.

Lemma add_choices_spec d cs :
  NoDup (map fst d) →
  add_choices d cs
  = if decide (Forall (known_in d) cs)
    then Py.ret (map (λ kv, (kv.1, kv.2 + category_total kv.1 cs)) d)
    else Py.raise Py.KeyError.
Proof.
  revert d. induction cs as [|c cs IH]; intros d Hnd; cbn [add_choices].
  - rewrite decide_True by constructor. unfold Py.ret. f_equal.
    rewrite <- (list_fmap_id d) at 1. apply list_fmap_ext.
    intros i [k x] _. simpl. f_equal. lia.
  - rewrite (add_choice_spec d (scores c) Hnd).
    destruct (decide (Forall _ (scores c))) as [Hc|Hc]; cbn [Py.bind Py.ret Py.raise].
    + assert (map fst (map (λ kv : string * Z,
                 (kv.1, kv.2 + item_total kv.1 (scores c))) d)
              = map fst d) as Hkeys.
      { rewrite <- list_fmap_compose. by apply list_fmap_ext. }
      rewrite IH by (by rewrite Hkeys).
      unfold known_in. rewrite Hkeys.
      destruct (decide (Forall _ cs)) as [Hall|Hno].
      * rewrite decide_True by (by constructor).
        unfold Py.ret. f_equal. rewrite <- list_fmap_compose.
        apply list_fmap_ext. intros i [k x] _. simpl. f_equal. lia.
      * rewrite decide_False; [done|]. by intros [_ ?]%Forall_cons.
    + rewrite decide_False; [done|]. by intros [? _]%Forall_cons.
Qed.

Lemma average_keys d n r :
  average d n = inr r → map fst r = map fst d.
Proof.
  revert r. induction d as [|[k x] d IH]; intros r; simpl.
  - by intros [= <-].
  - destruct (Py.truediv x n) as [|q]; simpl; [discriminate|].
    destruct (Py.round q) as [|z]; simpl; [discriminate|].
    destruct (average d n) as [|rest]; simpl; [discriminate|].
    intros [= <-]. simpl. f_equal. by apply IH.
Qed.

Lemma known_in_categories choice :
  known_in [("frugality", 0); ("safety", 0); ("time", 0); ("initiative", 0)] choice
  ↔ Forall (λ kv, kv.1 ∈ categories) (scores choice).
Proof. done. Qed.

(** The four totals that [calculate_score] averages. *)
Lemma calculate_score_totals scenario cs :
  cs ≠ [] → length cs = length (steps scenario) →
  calculate_score scenario cs
  = if decide (Forall (λ c, Forall (λ kv, kv.1 ∈ categories) (scores c)) cs)
    then
      let* category_scores :=
        average (map (λ k, (k, category_total k cs)) categories)
                (Z.of_nat (length cs)) in
      let* overall_score := weighted_sum 0%float category_scores in
      let* overall := Py.round overall_score in
      Py.ret (overall, category_scores)
    else Py.raise Py.KeyError.
Proof.
  intros Hne Hlen. unfold calculate_score.
  rewrite bool_decide_eq_false_2 by done.
  rewrite (proj2 (Nat.eqb_eq _ _) Hlen). cbn [negb orb].
  rewrite add_choices_spec.
  2:{ apply (bool_decide_unpack _). by vm_compute. }
  destruct (decide (Forall (known_in _) cs)) as [Hk|Hk].
  - rewrite decide_True by done. done.
  - rewrite decide_False by done. done.
Qed.

(** X9: when the lengths agree, a choice that carries a category other
    than the four known ones makes [calculate_score] raise [KeyError],
    whatever the other choices are. *)
Theorem calculate_score_unknown_category_raises scenario cs choice category score :
  length cs = length (steps scenario) →
  choice ∈ cs →
  (category, score) ∈ scores choice →
  category ∉ categories →
  calculate_score scenario cs = Py.raise Py.KeyError.
Proof.
  intros Hlen Hc Hitem Hcat.
  rewrite calculate_score_totals; [|by intros ->; apply elem_of_nil in Hc|done].
  rewrite decide_False; [done|].
  intros Hall. rewrite Forall_forall in Hall. specialize (Hall choice Hc).
  rewrite Forall_forall in Hall. by specialize (Hall (category, score) Hitem).
Qed.

Lemma calculate_score_unknown_category_raises_witness :
  calculate_score shopping_two_steps
    [ {| text := "x"; scores := [("frugality", 20); ("safety", 60)] |};
      {| text := "y"; scores := [("time", 50); ("luck", 95)] |} ]
  = Py.raise Py.KeyError.
Proof.
  apply (calculate_score_unknown_category_raises shopping_two_steps _
           {| text := "y"; scores := [("time", 50); ("luck", 95)] |} "luck" 95).
  - reflexivity.
  - apply list_elem_of_further, list_elem_of_here.
  - apply list_elem_of_further, list_elem_of_here.
  - apply (bool_decide_unpack _). by vm_compute.
Defined.

Lemma calculate_score_length_mismatch_general scenario cs :
  length cs ≠ length (steps scenario) →
  calculate_score scenario cs = Py.ret (0, []).
Proof.
  intros Hlen. unfold calculate_score.
  apply Nat.eqb_neq in Hlen. rewrite Hlen. by rewrite orb_true_r.
Qed.

(** X10: a result of [calculate_score] has an empty breakdown only in
    the degraded case (no choice, or a number of choices other than the
    number of steps), where the score is [0]; otherwise its breakdown
    has exactly the keys frugality, safety, time and initiative, in this
    order, and every choice carried known categories only. *)
Theorem calculate_score_breakdown scenario cs overall breakdown :
  calculate_score scenario cs = Py.ret (overall, breakdown) →
  (breakdown = [] ∧ overall = 0
   ∧ (cs = [] ∨ length cs ≠ length (steps scenario)))
  ∨ (map fst breakdown = categories
     ∧ cs ≠ [] ∧ length cs = length (steps scenario)
     ∧ Forall (λ c, Forall (λ kv, kv.1 ∈ categories) (scores c)) cs).
Proof.
  destruct (decide (cs = [])) as [->|Hne].
  { unfold calculate_score. simpl. intros [= <- <-]. left. auto. }
  destruct (decide (length cs = length (steps scenario))) as [Hlen|Hlen].
  2:{ rewrite calculate_score_length_mismatch_general by done.
      intros [= <- <-]. left. auto. }
  rewrite calculate_score_totals by done.
  destruct (decide (Forall _ cs)) as [Hk|Hk]; [|discriminate].
  cbv zeta.
  destruct (average _ _) as [|cat] eqn:Havg; simpl; [discriminate|].
  destruct (weighted_sum 0 cat) as [|o]; simpl; [discriminate|].
  destruct (Py.round o) as [|r]; simpl; [discriminate|].
  intros [= <- <-]. right. repeat split; try done.
  apply average_keys in Havg. rewrite Havg.
  rewrite <- list_fmap_compose. apply list_fmap_id.
Qed.


Lemma calculate_score_breakdown_witness :
  map fst [("frugality", 58); ("safety", 82); ("time", 65); ("initiative", 60)]
  = categories.
Proof.
  destruct (calculate_score_breakdown shopping_two_steps
      [ {| text := "Grab a cart and start shopping";
           scores := [("frugality", 20); ("safety", 80); ("time", 60); ("initiative", 40)] |};
        {| text := "Look for cheaper alternatives or sales";
           scores := [("frugality", 95); ("safety", 85); ("time", 70); ("initiative", 80)] |} ]
      67 [("frugality", 58); ("safety", 82); ("time", 65); ("initiative", 60)])
    as [(Hempty & _)|(Hkeys & _)].
  - vm_compute. reflexivity.
  - discriminate Hempty.
  - exact Hkeys.
Defined.



Lemma in_range_spec r :
  in_range r = true →
  ∃ overall breakdown,
    r = Py.ret (overall, breakdown)
    ∧ 0 ≤ overall ≤ 100
    ∧ map fst breakdown = categories
    ∧ Forall (λ kv, 0 ≤ kv.2 ≤ 100) breakdown.
Proof.
  destruct r as [e|[overall breakdown]]; simpl; [discriminate|].
  rewrite !andb_true_iff. intros [[[Hlo Hhi] Hkeys] Hall].
  exists overall, breakdown. repeat split; try lia.
  - by apply bool_decide_eq_true in Hkeys.
  - apply Forall_forall. intros kv Hkv.
    rewrite forallb_forall in Hall. apply list_elem_of_In, Hall in Hkv.
    lia.
Qed.

(** X12: every way to play an embedded scenario, one of its choices for
    each step, is scored without an exception: the score and the four
    entries of the breakdown lie within [[0, 100]]. *)
Theorem calculate_score_embedded_runs scenario cs :
  scenario ∈ _load_scenarios →
  cs ∈ runs (steps scenario) →
  ∃ overall breakdown,
    calculate_score scenario cs = Py.ret (overall, breakdown)
    ∧ 0 ≤ overall ≤ 100
    ∧ map fst breakdown = categories
    ∧ Forall (λ kv, 0 ≤ kv.2 ≤ 100) breakdown.
Proof.
  intros Hs Hcs. apply in_range_spec.
  assert (forallb (λ s, forallb (λ cs, in_range (calculate_score s cs))
                                (runs (steps s)))
                  _load_scenarios = true) as Hall by (by vm_compute).
  rewrite forallb_forall in Hall.
  apply list_elem_of_In, Hall in Hs.
  rewrite forallb_forall in Hs. by apply Hs, list_elem_of_In.
Qed.

Lemma find_by_unique_key {A} (key : A → string) (l : list A) (x : A) :
  NoDup (map key l) → x ∈ l →
  find (λ y, bool_decide (key y = key x)) l = Some x.
Proof.
  induction l as [|y l IH]; intros Hnd Hin; [by apply elem_of_nil in Hin|].
  simpl. apply NoDup_cons in Hnd as [Hy Hnd]. case_bool_decide as Heq.
  - apply elem_of_cons in Hin as [->|Hin]; [done|].
    exfalso. apply Hy. rewrite Heq. by apply list_elem_of_fmap_2.
  - apply elem_of_cons in Hin as [->|Hin]; [done|]. by apply IH.
Qed.

Lemma calculate_score_embedded_runs_witness :
  ∃ overall breakdown,
    calculate_score (nth 2 _load_scenarios shopping_two_steps)
                    (nth 13 (runs (steps (nth 2 _load_scenarios shopping_two_steps))) [])
    = Py.ret (overall, breakdown)
    ∧ 0 ≤ overall ≤ 100.
Proof.
  destruct (calculate_score_embedded_runs
              (nth 2 _load_scenarios shopping_two_steps)
              (nth 13 (runs (steps (nth 2 _load_scenarios shopping_two_steps))) []))
    as (overall & breakdown & Hres & Hrange & _).
  - apply list_elem_of_In, nth_In. vm_compute. lia.
  - apply list_elem_of_In, nth_In. vm_compute. lia.
  - exists overall, breakdown. split; [exact Hres | exact Hrange].
Defined.

(** [get_scenario_by_id] returns each embedded scenario for its own id,
    returns only scenarios of the given id, and returns [None] for an id
    that no embedded scenario has. *)
Lemma get_scenario_by_id_lookup :
  (∀ scenario, scenario ∈ _load_scenarios →
               get_scenario_by_id (scenario_id scenario) = Some scenario)
  ∧ (∀ id scenario, get_scenario_by_id id = Some scenario →
                    scenario ∈ _load_scenarios ∧ scenario_id scenario = id)
  ∧ (∀ id, id ∉ map scenario_id _load_scenarios → get_scenario_by_id id = None).
Proof.
  split; [|split].
  - intros scenario Hs. unfold get_scenario_by_id.
    apply find_by_unique_key; [|done].
    apply (bool_decide_unpack _). by vm_compute.
  - intros id scenario Hfind. unfold get_scenario_by_id in Hfind.
    apply find_some in Hfind as [Hin Heq]. split.
    + by apply list_elem_of_In.
    + by apply bool_decide_eq_true in Heq.
  - intros id Hid. unfold get_scenario_by_id.
    destruct (find _ _) as [s|] eqn:Hfind; [|done].
    apply find_some in Hfind as [Hin Heq].
    apply bool_decide_eq_true in Heq. exfalso. apply Hid. subst id.
    by apply list_elem_of_fmap_2, list_elem_of_In.
Qed.

End SimFacts.

(* ===================================================================== *)
(** * Properties of the float comparisons *)
(* ===================================================================== *)

Module FloatFacts.

Lemma ltb_leb (x y : float) : (x <? y)%float = true → (x <=? y)%float = true.
Proof.
  rewrite FloatAxioms.ltb_spec, FloatAxioms.leb_spec. unfold SFltb, SFleb.
  by destruct (SFcompare (Prim2SF x) (Prim2SF y)) as [[]|].
Qed.

(** [min(100, x)] is at most 100, and [max(0, y)] at least 0, whatever
    [x] and [y] are, NaN included. *)
Lemma min_100_le (x : float) : (Py.min 100 x <=? 100)%float = true.
Proof.
  unfold Py.min. destruct (x <? 100)%float eqn:Hlt; [by apply ltb_leb | done].
Qed.

Lemma max_0_ge (y : float) : (0 <=? Py.max 0 y)%float = true.
Proof.
  unfold Py.max. destruct (0 <? y)%float eqn:Hlt; [by apply ltb_leb | done].
Qed.

Lemma max_0_le (y : float) :
  (y <=? 100)%float = true → (Py.max 0 y <=? 100)%float = true.
Proof. intros Hy. unfold Py.max. by destruct (0 <? y)%float. Qed.

Lemma is_nan_Prim2SF (x : float) : is_nan x = true → Prim2SF x = S754_nan.
Proof.
  unfold is_nan. rewrite FloatAxioms.eqb_spec. unfold SFeqb.
  destruct (Prim2SF x) as [s|s| |s m e]; simpl; try done.
  - by destruct s.
  - rewrite Z.compare_refl, Pos.compare_cont_refl. by destruct s.
Qed.

Lemma add_nan_l (x y : float) :
  Prim2SF x = S754_nan → Prim2SF (x + y) = S754_nan.
Proof. intros H. rewrite add_spec, H. done. Qed.

Lemma add_nan_r (x y : float) :
  Prim2SF y = S754_nan → Prim2SF (x + y) = S754_nan.
Proof.
  intros H. rewrite add_spec, H. unfold SF64add, SFadd.
  by destruct (Prim2SF x) as [[]|[]| |].
Qed.

Lemma sub_nan_l (x y : float) :
  Prim2SF x = S754_nan → Prim2SF (x - y) = S754_nan.
Proof. intros H. rewrite sub_spec, H. done. Qed.

Lemma abs_nan (x : float) :
  Prim2SF x = S754_nan → Prim2SF (abs x) = S754_nan.
Proof. intros H. rewrite abs_spec, H. done. Qed.

Lemma ltb_nan_r (x y : float) :
  Prim2SF y = S754_nan → (x <? y)%float = false.
Proof.
  intros H. rewrite FloatAxioms.ltb_spec, H. unfold SFltb, SFcompare.
  by destruct (Prim2SF x) as [[]|[]| |].
Qed.

End FloatFacts.

(* ===================================================================== *)
(** * Properties of the stored settings *)
(* ===================================================================== *)

Module DbFacts.
Import Db.

Lemma user_settings_with db t : user_settings (with_user_settings db t) = t.
Proof. done. Qed.

Lemma get_user_settings_row db user_id settings db' :
  get_user_settings db user_id = (settings, db') →
  user_settings db' !! user_id = Some settings
  ∧ get_user_settings db' user_id = (settings, db').
Proof.
  unfold get_user_settings at 1.
  destruct (user_settings db !! user_id) as [s|] eqn:Hs; intros [= <- <-].
  - split; [done|]. unfold get_user_settings. by rewrite Hs.
  - split; [simpl; apply lookup_insert_eq|].
    unfold get_user_settings. simpl. by rewrite lookup_insert_eq.
Qed.

(** X13: after [get_user_settings] the user has a stored row holding
    the returned settings, the rows of the other users are as before, a
    row that existed is left as it was, and a second call returns the
    same settings without changing the storage. *)
Theorem get_user_settings_stable db user_id settings db' :
  get_user_settings db user_id = (settings, db') →
  user_settings db' !! user_id = Some settings
  ∧ (∀ other, other ≠ user_id →
              user_settings db' !! other = user_settings db !! other)
  ∧ (∀ row, user_settings db !! user_id = Some row → settings = row ∧ db' = db)
  ∧ (user_settings db !! user_id = None → settings = default_settings)
  ∧ get_user_settings db' user_id = (settings, db').
Proof.
  unfold get_user_settings at 1.
  destruct (user_settings db !! user_id) as [s|] eqn:Hs; intros [= <- <-].
  - split; [done|]. split; [done|]. split; [by intros row [= ->]|].
    split; [done|]. unfold get_user_settings. by rewrite Hs.
  - split; [simpl; apply lookup_insert_eq|].
    split; [intros other Hne; simpl; by apply lookup_insert_ne|].
    split; [done|]. split; [done|].
    unfold get_user_settings. simpl. by rewrite lookup_insert_eq.
Qed.

Lemma get_user_settings_stable_witness :
  user_settings (get_user_settings fresh_storage "teen").2 !! "teen"
  = Some default_settings.
Proof.
  apply (get_user_settings_stable fresh_storage "teen" default_settings
           (get_user_settings fresh_storage "teen").2).
  reflexivity.
Defined.

(** ** [update_user_settings] *)






(** X14: [update_user_settings] changes nothing and returns [False] for a
    user without a stored row, and when no key of [kwargs] is a valid
    field: it never creates a row. *)
Theorem update_user_settings_no_row db user_id kwargs :
  user_settings db !! user_id = None ∨ valid_updates kwargs = [] →
  update_user_settings db user_id kwargs = (false, db).
Proof.
  unfold update_user_settings. intros [Hnone| ->]; [|done].
  rewrite Hnone. by destruct (valid_updates kwargs).
Qed.

Lemma update_user_settings_no_row_witness :
  update_user_settings fresh_storage "teen" [("spend_ratio", 50%float)]
  = (false, fresh_storage).
Proof.
  apply (update_user_settings_no_row fresh_storage "teen"). left. reflexivity.
Defined.



End DbFacts.

(* ===================================================================== *)
(** * Properties of the budget ledger *)
(* ===================================================================== *)

Module BudgetFacts.
Import Budget FloatFacts.

(** ** The logging streak *)

Lemma streak_loop_bounds today i dates streak :
  0 < i →
  streak ≤ streak_loop today i dates streak ≤ streak + Z.of_nat (length dates).
Proof.
  revert i streak. induction dates as [|d dates IH]; intros i streak Hi; simpl.
  - lia.
  - rewrite (proj2 (Z.eqb_neq i 0)) by lia.
    destruct (d =? today - i); [|lia].
    specialize (IH (i + 1) (streak + 1)). lia.
Qed.

Lemma get_current_streak_nonneg db user_id :
  0 ≤ get_current_streak db user_id.
Proof.
  unfold get_current_streak.
  destruct (Db.log_dates db user_id) as [|d dates]; [simpl; lia|].
  cbn [streak_loop]. rewrite Z.eqb_refl.
  destruct ((d =? Db.today db) || (d =? Db.today db - 1)); [|lia].
  pose proof (streak_loop_bounds (Db.today db) (0 + 1) dates 1). lia.
Qed.

(** X16: the streak is at least [0] and at most the number of logged
    days, and it is [0] when the latest logged day is neither the
    clock's day nor the day before. *)
Theorem get_current_streak_bounds db user_id :
  0 ≤ get_current_streak db user_id
    ≤ Z.of_nat (length (Db.log_dates db user_id))
  ∧ (∀ latest, head (Db.log_dates db user_id) = Some latest →
               latest ≠ Db.today db → latest ≠ Db.today db - 1 →
               get_current_streak db user_id = 0).
Proof.
  unfold get_current_streak.
  destruct (Db.log_dates db user_id) as [|d dates]; [by split; [simpl; lia|]|].
  cbn [streak_loop length]. rewrite Z.eqb_refl. split.
  - destruct ((d =? Db.today db) || (d =? Db.today db - 1)); [|lia].
    pose proof (streak_loop_bounds (Db.today db) (0 + 1) dates 1). lia.
  - intros latest [= <-] Hne1 Hne2.
    by rewrite (proj2 (Z.eqb_neq _ _) Hne1), (proj2 (Z.eqb_neq _ _) Hne2).
Qed.

Lemma streak_loop_consecutive today (i n : nat) rest streak :
  (0 < i)%nat →
  streak_loop today (Z.of_nat i)
    (map (λ j, today - Z.of_nat j) (seq i n) ++ rest) streak
  = streak_loop today (Z.of_nat (i + n)) rest (streak + Z.of_nat n).
Proof.
  revert i streak. induction n as [|n IH]; intros i streak Hi.
  - simpl. by rewrite Nat.add_0_r, Z.add_0_r.
  - cbn [seq map app streak_loop].
    rewrite (proj2 (Z.eqb_neq (Z.of_nat i) 0)) by lia.
    rewrite Z.eqb_refl.
    replace (Z.of_nat i + 1) with (Z.of_nat (S i)) by lia.
    rewrite IH by lia. f_equal; lia.
Qed.

Lemma streak_loop_stops today i rest streak :
  0 < i → head rest ≠ Some (today - i) →
  streak_loop today i rest streak = streak.
Proof.
  intros Hi Hhd. destruct rest as [|d rest]; [done|]. simpl.
  rewrite (proj2 (Z.eqb_neq i 0)) by lia.
  rewrite (proj2 (Z.eqb_neq d (today - i))); [done|].
  intros ->. by apply Hhd.
Qed.

(** X17: when the user logged today and on each of the [k] days before,
    and not on the day before those, the streak is [k + 1]. *)
Theorem get_current_streak_consecutive db user_id (k : nat) rest :
  Db.log_dates db user_id
  = (map (λ j, Db.today db - Z.of_nat j) (seq 0 (S k)) ++ rest)%list →
  head rest ≠ Some (Db.today db - Z.of_nat (S k)) →
  get_current_streak db user_id = Z.of_nat (S k).
Proof.
  intros Hdates Hrest. unfold get_current_streak. rewrite Hdates.
  cbn [seq map app streak_loop]. rewrite Z.eqb_refl.
  replace (Db.today db - Z.of_nat 0) with (Db.today db) by lia.
  rewrite Z.eqb_refl. cbn [orb].
  change (0 + 1) with (Z.of_nat 1).
  rewrite streak_loop_consecutive by lia.
  rewrite streak_loop_stops; [lia | lia |].
  by replace (Z.of_nat (1 + k)) with (Z.of_nat (S k)) by lia.
Qed.

Lemma get_current_streak_consecutive_witness :
  get_current_streak Db.saver_storage "teen" = 2.
Proof.
  apply (get_current_streak_consecutive Db.saver_storage "teen" 1 []).
  - reflexivity.
  - discriminate.
Defined.

(** X18: with the logged days in strictly decreasing order, as the query
    returns them, a user whose latest log is not of today has streak
    [1] if it is of yesterday, however many days in a row were logged
    before, and streak [0] otherwise. *)
Theorem get_current_streak_not_today db user_id latest earlier :
  Db.log_dates db user_id = latest :: earlier →
  StronglySorted Z.gt (latest :: earlier) →
  latest ≠ Db.today db →
  get_current_streak db user_id
  = if latest =? Db.today db - 1 then 1 else 0.
Proof.
  intros Hdates Hsorted Hnot. unfold get_current_streak. rewrite Hdates.
  cbn [streak_loop]. rewrite Z.eqb_refl.
  rewrite (proj2 (Z.eqb_neq latest (Db.today db))) by done. cbn [orb].
  destruct (latest =? Db.today db - 1) eqn:Hy; [|done].
  apply Z.eqb_eq in Hy. apply streak_loop_stops; [lia|].
  destruct earlier as [|d earlier]; [done|]. simpl.
  apply StronglySorted_inv in Hsorted as [_ Hall].
  apply Forall_cons in Hall as [Hd _]. intros [= ->]. lia.
Qed.

Lemma get_current_streak_not_today_witness :
  get_current_streak Db.lapsed_storage "teen" = 1.
Proof.
  rewrite (get_current_streak_not_today Db.lapsed_storage "teen"
             739001 [739000; 738999]).
  - reflexivity.
  - reflexivity.
  - repeat constructor.
  - simpl. lia.
Defined.

(** ** The financial health score *)

(** The financial health score is never above [100] (and never a NaN),
    whatever the balances are, and is [0.0] when the total balance
    equals zero. *)
Lemma get_financial_health_score_at_most_100 db user_id :
  (get_financial_health_score db user_id <=? 100)%float = true
  ∧ ((total (get_budget_overview db user_id) =? 0)%float = true →
     get_financial_health_score db user_id = 0%float).
Proof.
  unfold get_financial_health_score.
  destruct (total (get_budget_overview db user_id) =? 0)%float.
  - done.
  - split; [apply min_100_le | done].
Qed.

(** ** Ratios *)

(** Once the row of the user exists, [update_ratios] stores any three
    ratios, whatever they sum to: it returns [True], and
    [get_user_settings] then returns these ratios with the four weights
    the user had. *)
Lemma update_ratios_round_trip db user_id spend_ratio save_ratio share_ratio :
  ∃ db',
    update_ratios (Db.get_user_settings db user_id).2 user_id
      spend_ratio save_ratio share_ratio = (true, db')
    ∧ Db.get_user_settings db' user_id
      = ({| Db.spend_ratio := spend_ratio;
            Db.save_ratio := save_ratio;
            Db.share_ratio := share_ratio;
            Db.skills_weight := Db.skills_weight (Db.get_user_settings db user_id).1;
            Db.budgeting_weight := Db.budgeting_weight (Db.get_user_settings db user_id).1;
            Db.community_weight := Db.community_weight (Db.get_user_settings db user_id).1;
            Db.judgment_weight := Db.judgment_weight (Db.get_user_settings db user_id).1 |},
         db').
Proof.
  destruct (Db.get_user_settings db user_id) as [settings db1] eqn:Hget.
  apply DbFacts.get_user_settings_row in Hget as (Hrow & _).
  unfold update_ratios, Db.update_user_settings. simpl.
  change (Db.valid_updates
            [("spend_ratio", spend_ratio); ("save_ratio", save_ratio);
             ("share_ratio", share_ratio)])
    with [("spend_ratio", spend_ratio); ("save_ratio", save_ratio);
          ("share_ratio", share_ratio)].
  rewrite Hrow. eexists. split; [reflexivity|].
  unfold Db.get_user_settings. simpl. by rewrite lookup_insert_eq.
Qed.

(** ** Badges *)

Lemma elem_of_append_if condition badge earned x :
  x ∈ append_if condition badge earned
  ↔ x ∈ earned ∨ (condition = true ∧ x = badge).
Proof.
  unfold append_if. destruct condition.
  - rewrite elem_of_app, list_elem_of_singleton. split.
    + intros [?|?]; [by left | by right].
    + intros [?|[_ ?]]; [by left | by right].
  - split; [by left|]. by intros [?|[? _]].
Qed.

(** X19: the badges are earned in the order First Steps, Week Warrior,
    Monthly Master, Saver, Giver, each at most once, and Monthly Master
    never without Week Warrior. *)
Theorem get_user_badges_order db counts user_id earned :
  get_user_badges db counts user_id = Some earned →
  sublist earned
    [first_log; week_streak; month_streak; save_milestone; share_milestone]
  ∧ (month_streak ∈ earned → week_streak ∈ earned).
Proof.
  unfold get_user_badges.
  destruct (Db.budget_log_count counts user_id) as [|count rows]; [discriminate|].
  intros [= <-]. split.
  - unfold append_if.
    destruct (0 <? count), (7 <=? get_current_streak db user_id),
      (30 <=? get_current_streak db user_id),
      (100 <=? get_jar_balance db user_id "save")%float,
      (50 <=? get_jar_balance db user_id "share")%float; simpl;
      repeat first [apply sublist_nil | apply sublist_skip | apply sublist_cons].
  - rewrite !elem_of_append_if.
    intros [[[[[Hin|[_ [=]]]|[_ [=]]]|[H30 _]]|[_ [=]]]|[_ [=]]].
    + by apply elem_of_nil in Hin.
    + left. left. left. right. split; [lia | done].
Qed.

Lemma get_user_badges_order_witness :
  sublist [first_log]
    [first_log; week_streak; month_streak; save_milestone; share_milestone].
Proof.
  apply (get_user_badges_order Db.saver_storage Db.saver_counts "teen" [first_log]).
  reflexivity.
Defined.

End BudgetFacts.

(* ===================================================================== *)
(** * Properties of the Autonomy Index *)
(* ===================================================================== *)

Module AutonomyFacts.
Import Autonomy.

(** ** Floating-point comparisons *)

(** A float above zero is not equal to zero. *)
Lemma positive_not_zero (x : float) :
  (0 <? x)%float = true → (x =? 0)%float = false.
Proof.
  rewrite FloatAxioms.ltb_spec, FloatAxioms.eqb_spec.
  change (Prim2SF 0) with (S754_zero false).
  unfold SFltb, SFeqb.
  destruct (Prim2SF x) as [s|s| |s m e]; simpl; try done; by destruct s.
Qed.

(** ** Weights *)

(** C5: the call [update_weights(0.3, 0.3, 0.15, 0.26)] returns [False]
    and leaves the object as it was: in binary64 arithmetic the four
    arguments sum to 1.01 and [abs(1.01 - 1.0)] is
    0.010000000000000009, which is greater than 0.01. *)
Theorem update_weights_rejects_sum_1_01 self :
  update_weights self 0.3 0.3 0.15 0.26 = (false, self)
  ∧ (0.3 + 0.3 + 0.15 + 0.26 = 1.01)%float
  ∧ abs (1.01 - 1.0) = 0.010000000000000009%float
  ∧ (0.01 <? 0.010000000000000009)%float = true.
Proof. destruct self as [[a b c d]]. repeat split; by vm_compute. Qed.

(** The tolerance itself is accepted: the rejection above is strict. *)
Example update_weights_accepts :
  update_weights init 0.3 0.3 0.15 0.25
  = (true, {| default_weights := Build_Weights 0.3 0.3 0.15 0.25 |})
  ∧ (update_weights init 0.3 0.3 0.15 0.249).1 = true
  ∧ (update_weights init 0.5 0.25 0.125 0.1171875).1 = true
  ∧ (update_weights init 0.5 0.5 0.5 0.5).1 = false.
Proof. repeat split; by vm_compute. Qed.

(** C4: the result of [compute_autonomy_index], and the storage it
    leaves, are the same after any sequence of [update_weights] calls
    on the object as before it: those calls change only
    [default_weights], while the index takes its four weights from the
    stored settings of the user. *)
Theorem compute_autonomy_index_after_update_weights self calls db user_id :
  compute_autonomy_index (update_weights_many self calls) db user_id
  = compute_autonomy_index self db user_id.
Proof.
  revert self. induction calls as [|[[[a b] c] d] calls IH]; intros self.
  - reflexivity.
  - unfold update_weights_many. simpl. fold (update_weights_many (update_weights self a b c d).2 calls).
    rewrite IH. reflexivity.
Qed.

(** An accepted [update_weights] does change the object, and the index
    of a user stays what it was. *)
Example update_weights_changes_default_weights_only :
  let self' := update_weights_many init [(0.1, 0.1, 0.1, 0.7)%float] in
  default_weights self' ≠ default_weights init
  ∧ (compute_autonomy_index self' Db.saver_storage "teen").1 = inr 48.9%float
  ∧ (compute_autonomy_index init Db.saver_storage "teen").1 = inr 48.9%float.
Proof.
  repeat split; [|by vm_compute..].
  intros H. apply (f_equal (fun w => PrimFloat.eqb (skills w) 0.1)) in H.
  vm_compute in H. discriminate.
Qed.

(** ** Sub-scores *)

(** [get_user_settings] may add a row to [user_settings]; it leaves the
    other tables and the clock as they are. *)
Lemma get_user_settings_frame db user_id :
  let db' := (Db.get_user_settings db user_id).2 in
  Db.completed_quest_ids db' = Db.completed_quest_ids db
  ∧ Db.completed_quest_count db' = Db.completed_quest_count db
  ∧ Db.jar_sum db' = Db.jar_sum db
  ∧ Db.log_dates db' = Db.log_dates db
  ∧ Db.board_post_count db' = Db.board_post_count db
  ∧ Db.board_claim_count db' = Db.board_claim_count db
  ∧ Db.recent_sim_scores db' = Db.recent_sim_scores db
  ∧ Db.today db' = Db.today db.
Proof.
  unfold Db.get_user_settings.
  destruct (Db.user_settings db !! user_id); simpl; repeat split.
Qed.

Lemma get_user_settings_missing db user_id :
  Db.user_settings db !! user_id = None →
  (Db.get_user_settings db user_id).1 = Db.default_settings.
Proof. unfold Db.get_user_settings. by intros ->. Qed.

Lemma sub_scores_after_get_user_settings db user_id :
  let db' := (Db.get_user_settings db user_id).2 in
  _calculate_skills_score db' user_id = _calculate_skills_score db user_id
  ∧ _calculate_budgeting_score db' user_id = _calculate_budgeting_score db user_id
  ∧ _calculate_community_score db' user_id = _calculate_community_score db user_id
  ∧ _calculate_judgment_score db' user_id = _calculate_judgment_score db user_id.
Proof.
  destruct (get_user_settings_frame db user_id)
    as (_ & Hq & Hj & Hd & Hp & Hc & Hs & Ht).
  cbv zeta in *.
  unfold _calculate_skills_score, _calculate_budgeting_score,
    _calculate_community_score, _calculate_judgment_score,
    Budget.get_financial_health_score, Budget.get_budget_overview,
    Budget.get_current_streak, Budget.get_jar_balance.
  by rewrite Hq, Hj, Hd, Hp, Hc, Hs, Ht.
Qed.

(** The index is the rounded weighted sum of the four sub-scores, with
    the weights of the stored settings. *)
Lemma compute_autonomy_index_unfold self db user_id :
  (compute_autonomy_index self db user_id).1
  = let settings := (Db.get_user_settings db user_id).1 in
    let* judgment_score := _calculate_judgment_score db user_id in
    Py.ret
      (Py.round1
         (Py.float_of_Z (_calculate_skills_score db user_id)
            * Db.skills_weight settings
          + _calculate_budgeting_score db user_id * Db.budgeting_weight settings
          + Py.float_of_Z (_calculate_community_score db user_id)
            * Db.community_weight settings
          + judgment_score * Db.judgment_weight settings)%float).
Proof.
  destruct (sub_scores_after_get_user_settings db user_id)
    as (Hs & Hb & Hc & Hj).
  cbv zeta in *. unfold compute_autonomy_index.
  destruct (Db.get_user_settings db user_id) as [settings db'].
  simpl in *. by rewrite Hs, Hb, Hc, Hj.
Qed.

Lemma budgeting_score_no_transactions db user_id :
  (∀ jar, Budget.get_jar_balance db user_id jar = 0%float) →
  Db.log_dates db user_id = [] →
  _calculate_budgeting_score db user_id = 0%float.
Proof.
  intros Hjar Hdates.
  unfold _calculate_budgeting_score, Budget.get_financial_health_score,
    Budget.get_budget_overview, Budget.get_current_streak.
  rewrite !Hjar, Hdates. by vm_compute.
Qed.

(** C7: for a user with no completed quest, no budget transaction (every
    jar balance is [0.0] and no day was logged), no board post or claim
    and no simulation run, whose stored weights are the defaults (0.30,
    0.30, 0.15, 0.25), [compute_autonomy_index] returns exactly [12.5]:
    the skills, budgeting and community sub-scores are [0], the judgment
    sub-score is [50.0], and the weighted sum is [50 * 0.25]. *)
Theorem compute_autonomy_index_new_user self db user_id :
  hd 0 (Db.completed_quest_count db user_id) = 0 →
  (∀ jar, Budget.get_jar_balance db user_id jar = 0%float) →
  Db.log_dates db user_id = [] →
  hd 0 (Db.board_post_count db user_id) = 0 →
  hd 0 (Db.board_claim_count db user_id) = 0 →
  Db.recent_sim_scores db user_id = [] →
  Db.skills_weight (Db.get_user_settings db user_id).1 = 0.30%float →
  Db.budgeting_weight (Db.get_user_settings db user_id).1 = 0.30%float →
  Db.community_weight (Db.get_user_settings db user_id).1 = 0.15%float →
  Db.judgment_weight (Db.get_user_settings db user_id).1 = 0.25%float →
  (compute_autonomy_index self db user_id).1 = Py.ret 12.5%float
  ∧ _calculate_skills_score db user_id = 0
  ∧ _calculate_budgeting_score db user_id = 0%float
  ∧ _calculate_community_score db user_id = 0
  ∧ _calculate_judgment_score db user_id = Py.ret 50.0%float
  ∧ (0 * 0.30 + 0 * 0.30 + 0 * 0.15 + 50.0 * 0.25 = 50 * 0.25)%float
  ∧ (50 * 0.25 = 12.5)%float.
Proof.
  intros Hquests Hjar Hdates Hposts Hclaims Hruns Hws Hwb Hwc Hwj.
  assert (_calculate_skills_score db user_id = 0) as Hs.
  { unfold _calculate_skills_score. by rewrite Hquests. }
  assert (_calculate_budgeting_score db user_id = 0%float) as Hb.
  { by apply budgeting_score_no_transactions. }
  assert (_calculate_community_score db user_id = 0) as Hc.
  { unfold _calculate_community_score. by rewrite Hposts, Hclaims. }
  assert (_calculate_judgment_score db user_id = Py.ret 50.0%float) as Hj.
  { unfold _calculate_judgment_score. by rewrite Hruns. }
  repeat split; try done.
  rewrite compute_autonomy_index_unfold. cbv zeta.
  rewrite Hs, Hb, Hc, Hj, Hws, Hwb, Hwc, Hwj. by vm_compute.
Qed.

Lemma compute_autonomy_index_new_user_witness :
  (compute_autonomy_index init Db.fresh_storage "teen").1 = Py.ret 12.5%float.
Proof.
  apply (compute_autonomy_index_new_user init Db.fresh_storage "teen");
    reflexivity.
Defined.

(** C8: for every user whose total jar balance is positive, the
    budgeting sub-score is the financial health score, plus
    [min(20, streak * 2)], minus [max(0, (spend / total - 0.70) * 100)],
    clamped to [[0, 100]], where the financial health score is
    [min(100, min(100, save / total * 200) + min(20, streak * 2)
     + max(0, 30 - spend / total * 30))]: the streak bonus is counted
    once inside the financial health score and once more on top of
    it. *)
Theorem budgeting_score_counts_streak_twice db user_id :
  (0 <? Budget.total (Budget.get_budget_overview db user_id))%float = true →
  Budget.get_financial_health_score db user_id
  = spec_financial_health_score
      (Budget.save (Budget.get_budget_overview db user_id)
       / Budget.total (Budget.get_budget_overview db user_id))%float
      (Budget.spend (Budget.get_budget_overview db user_id)
       / Budget.total (Budget.get_budget_overview db user_id))%float
      (Budget.get_current_streak db user_id)
  ∧ _calculate_budgeting_score db user_id
    = spec_budgeting_score
        (Budget.get_financial_health_score db user_id)
        (Budget.spend (Budget.get_budget_overview db user_id)
         / Budget.total (Budget.get_budget_overview db user_id))%float
        (Budget.get_current_streak db user_id).
Proof.
  intros Hpos.
  assert (Budget.get_financial_health_score db user_id
          = spec_financial_health_score
              (Budget.save (Budget.get_budget_overview db user_id)
               / Budget.total (Budget.get_budget_overview db user_id))%float
              (Budget.spend (Budget.get_budget_overview db user_id)
               / Budget.total (Budget.get_budget_overview db user_id))%float
              (Budget.get_current_streak db user_id)) as Hfhs.
  { unfold Budget.get_financial_health_score, spec_financial_health_score.
    cbv zeta. by rewrite (positive_not_zero _ Hpos), Hpos. }
  split; [exact Hfhs|].
  unfold _calculate_budgeting_score, spec_budgeting_score.
  cbv zeta. by rewrite Hpos.
Qed.

Lemma budgeting_score_counts_streak_twice_witness :
  Budget.get_current_streak Db.saver_storage "teen" = 2
  ∧ Budget.get_financial_health_score Db.saver_storage "teen" = 76%float
  ∧ _calculate_budgeting_score Db.saver_storage "teen" = 80%float.
Proof.
  split; [reflexivity|].
  destruct (budgeting_score_counts_streak_twice Db.saver_storage "teen")
    as [Hfhs Hscore]; [by vm_compute|].
  split.
  - rewrite Hfhs. by vm_compute.
  - rewrite Hscore. by vm_compute.
Defined.

(** With no money in the jars the financial health score is [0.0] and no
    penalty applies: the streak bonus then counts once. *)
Example budgeting_score_empty_jars :
  let db := Db.with_user_settings Db.fresh_storage ∅ in
  _calculate_budgeting_score
    {| Db.completed_quest_ids := Db.completed_quest_ids db;
       Db.completed_quest_count := Db.completed_quest_count db;
       Db.jar_sum := Db.jar_sum db;
       Db.log_dates := fun _ => [739000; 738999; 738998];
       Db.board_post_count := Db.board_post_count db;
       Db.board_claim_count := Db.board_claim_count db;
       Db.recent_sim_scores := Db.recent_sim_scores db;
       Db.user_settings := ∅;
       Db.today := 739000 |} "teen"
  = 6%float.
Proof. by vm_compute. Qed.

Import FloatFacts.

(** ** The ranges of the sub-scores *)

(** X20: the budgeting sub-score always lies within [[0, 100]] and the
    financial health score never exceeds [100], whatever the storage
    holds; the skills and community sub-scores lie within [[0, 100]]
    when the counts they read are not negative. *)
Theorem sub_scores_in_range db user_id :
  0 ≤ hd 0 (Db.completed_quest_count db user_id) →
  0 ≤ hd 0 (Db.board_post_count db user_id) →
  0 ≤ hd 0 (Db.board_claim_count db user_id) →
  0 ≤ _calculate_skills_score db user_id ≤ 100
  ∧ (0 <=? _calculate_budgeting_score db user_id)%float = true
  ∧ (_calculate_budgeting_score db user_id <=? 100)%float = true
  ∧ 0 ≤ _calculate_community_score db user_id ≤ 100
  ∧ (Budget.get_financial_health_score db user_id <=? 100)%float = true.
Proof.
  intros Hq Hp Hc. split; [|split; [|split; [|split]]].
  - unfold _calculate_skills_score. lia.
  - unfold _calculate_budgeting_score. apply max_0_ge.
  - unfold _calculate_budgeting_score. apply max_0_le, min_100_le.
  - unfold _calculate_community_score. lia.
  - unfold Budget.get_financial_health_score.
    destruct (Budget.total _ =? 0)%float; [done | apply min_100_le].
Qed.

Lemma sub_scores_in_range_witness :
  0 ≤ _calculate_skills_score Db.saver_storage "teen" ≤ 100
  ∧ (0 <=? _calculate_budgeting_score Db.saver_storage "teen")%float = true
  ∧ (_calculate_budgeting_score Db.saver_storage "teen" <=? 100)%float = true
  ∧ 0 ≤ _calculate_community_score Db.saver_storage "teen" ≤ 100
  ∧ (Budget.get_financial_health_score Db.saver_storage "teen" <=? 100)%float = true.
Proof.
  apply (sub_scores_in_range Db.saver_storage "teen"); simpl; lia.
Defined.

Lemma foldl_add_bounds (l : list Z) a :
  Forall (λ x, 0 ≤ x ≤ 100) l →
  a ≤ foldl Z.add a l ≤ a + 100 * Z.of_nat (length l).
Proof.
  intros Hall. revert a. induction Hall as [|x l Hx _ IH]; intros a; simpl.
  - lia.
  - specialize (IH (a + x)). lia.
Qed.

Lemma truediv_nonneg (a b : Z) :
  0 ≤ a → 0 < b → Py.truediv a b = Py.ret (Py.nearest_quotient false a b).
Proof.
  intros Ha Hb. unfold Py.truediv.
  rewrite (proj2 (Z.eqb_neq b 0)) by lia.
  rewrite (proj2 (Z.ltb_ge a 0)) by lia.
  rewrite (proj2 (Z.ltb_ge b 0)) by lia.
  by rewrite !Z.abs_eq by lia.
Qed.

(** The quotients of the sums that at most five scores within
    [[0, 100]] can have, checked one by one. *)
Lemma average_of_five_in_range (n k : nat) :
  (1 ≤ n ≤ 5)%nat → (k ≤ 100 * n)%nat →
  (0 <=? Py.nearest_quotient false (Z.of_nat k) (Z.of_nat n))%float = true
  ∧ (Py.nearest_quotient false (Z.of_nat k) (Z.of_nat n) <=? 100)%float = true.
Proof.
  intros Hn Hk.
  assert (forallb (λ n, forallb (λ k,
            (0 <=? Py.nearest_quotient false (Z.of_nat k) (Z.of_nat n))%float
            && (Py.nearest_quotient false (Z.of_nat k) (Z.of_nat n) <=? 100)%float)
            (seq 0 (100 * n + 1))) (seq 1 5) = true) as Htable.
  { vm_compute. reflexivity. }
  rewrite forallb_forall in Htable.
  specialize (Htable n). rewrite forallb_forall in Htable.
  assert (In n (seq 1 5)) as Hin by (apply in_seq; lia).
  assert (In k (seq 0 (100 * n + 1))) as Hin' by (apply in_seq; lia).
  specialize (Htable Hin k Hin').
  by apply andb_true_iff in Htable.
Qed.

(** X21: the judgment sub-score never raises; with at most five stored
    scores, each within [[0, 100]], it lies within [[0, 100]]; and
    [SimManager.get_judgment_score] computes the same value. *)
Theorem judgment_score_in_range db user_id :
  (length (Db.recent_sim_scores db user_id) ≤ 5)%nat →
  Forall (λ x, 0 ≤ x ≤ 100) (Db.recent_sim_scores db user_id) →
  ∃ score,
    _calculate_judgment_score db user_id = Py.ret score
    ∧ Sim.get_judgment_score db user_id = Py.ret score
    ∧ (0 <=? score)%float = true
    ∧ (score <=? 100)%float = true.
Proof.
  intros Hlen Hall.
  unfold _calculate_judgment_score, Sim.get_judgment_score.
  destruct (Db.recent_sim_scores db user_id) as [|x l] eqn:Hscores.
  - exists 50%float. by repeat split.
  - pose proof (foldl_add_bounds (x :: l) 0 Hall) as Hsum.
    set (sum := foldl Z.add 0 (x :: l)) in *.
    set (n := length (x :: l)) in *.
    assert (1 ≤ n ≤ 5)%nat as Hn by (subst n; simpl in *; lia).
    rewrite truediv_nonneg by lia.
    exists (Py.nearest_quotient false sum (Z.of_nat n)).
    split; [done|]. split; [done|].
    rewrite <- (Z2Nat.id sum) by lia.
    apply average_of_five_in_range; lia.
Qed.

Lemma judgment_score_in_range_witness :
  ∃ score,
    _calculate_judgment_score Db.saver_storage "teen" = Py.ret score
    ∧ (score <=? 100)%float = true.
Proof.
  destruct (judgment_score_in_range Db.saver_storage "teen")
    as (score & Hs & _ & _ & Hle).
  - simpl. lia.
  - repeat constructor; lia.
  - exists score. split; [exact Hs | exact Hle].
Defined.

Lemma judgment_score_returns db user_id :
  ∃ score, _calculate_judgment_score db user_id = Py.ret score.
Proof.
  unfold _calculate_judgment_score.
  destruct (Db.recent_sim_scores db user_id) as [|x l]; [by eexists|].
  unfold Py.truediv. rewrite (proj2 (Z.eqb_neq _ 0)) by (simpl; lia).
  by eexists.
Qed.

(** ** The index as a whole *)


(** ** Weights *)

(** X23: [update_weights] accepts a NaN: when one of the four weights is
    a NaN the call returns [True] and stores the four values. *)
Theorem update_weights_accepts_nan self a b c d :
  is_nan a || is_nan b || is_nan c || is_nan d = true →
  update_weights self a b c d
  = (true,
     {| default_weights :=
          {| skills := a; budgeting := b; community := c; judgment := d |} |}).
Proof.
  intros Hnan. unfold update_weights.
  assert (Prim2SF (a + b + c + d) = S754_nan) as Hsum.
  { apply orb_true_iff in Hnan as [Hnan|Hd];
      [|by apply add_nan_r, is_nan_Prim2SF].
    apply add_nan_l.
    apply orb_true_iff in Hnan as [Hnan|Hc];
      [|by apply add_nan_r, is_nan_Prim2SF].
    apply add_nan_l.
    apply orb_true_iff in Hnan as [Ha|Hb].
    - by apply add_nan_l, is_nan_Prim2SF.
    - by apply add_nan_r, is_nan_Prim2SF. }
  by rewrite (ltb_nan_r _ _ (abs_nan _ (sub_nan_l _ 1 Hsum))).
Qed.

Lemma update_weights_accepts_nan_witness :
  (update_weights init 0.3 nan 0.15 0.25).1 = true.
Proof.
  rewrite (update_weights_accepts_nan init 0.3 nan 0.15 0.25); reflexivity.
Defined.

(** X24: whatever [update_weights] calls are made on a new object, its
    [default_weights] pass the acceptance test: a rejected call leaves
    them as they were. *)
Theorem default_weights_accepted calls :
  accepted (default_weights (update_weights_many init calls)).
Proof.
  assert (∀ self, accepted (default_weights self) →
                  accepted (default_weights (update_weights_many self calls)))
    as Hgen.
  { induction calls as [|[[[a b] c] d] calls IH]; intros self Hself; [done|].
    unfold update_weights_many. cbn [foldl].
    apply IH. unfold update_weights.
    destruct (0.01 <? abs (a + b + c + d - 1))%float eqn:Htest; [done|].
    exact Htest. }
  apply Hgen. by vm_compute.
Qed.

(** ** Milestones *)

Lemma elem_of_append_milestone condition m ms x :
  x ∈ append_milestone condition m ms
  ↔ x ∈ ms ∨ (condition = true ∧ x = m).
Proof.
  unfold append_milestone. destruct condition.
  - rewrite elem_of_app, list_elem_of_singleton. split.
    + intros [?|?]; [by left | by right].
    + intros [?|[_ ?]]; [by left | by right].
  - split; [by left|]. by intros [?|[? _]].
Qed.

(** X25: [get_next_milestones] never raises; every milestone it returns
    has a target above the current count, by at most seven; and an area
    has a milestone exactly while its count is below 20 quests, 28 days,
    15 posts or 10 runs (counts that are not negative). *)
Theorem get_next_milestones_ahead db counts user_id :
  0 ≤ hd 0 (Db.completed_quest_count db user_id) →
  0 ≤ hd 0 (Db.board_post_count db user_id) →
  0 ≤ hd 0 (Db.sim_run_count counts user_id) →
  ∃ milestones,
    get_next_milestones db counts user_id = Py.ret milestones
    ∧ Forall (λ m, current m < target m ≤ current m + 7) milestones
    ∧ sublist (map area milestones)
              ["Skills"; "Budgeting"; "Community"; "Judgment"]
    ∧ ("Skills" ∈ map area milestones
       ↔ hd 0 (Db.completed_quest_count db user_id) < 20)
    ∧ ("Budgeting" ∈ map area milestones
       ↔ Budget.get_current_streak db user_id < 28)
    ∧ ("Community" ∈ map area milestones
       ↔ hd 0 (Db.board_post_count db user_id) < 15)
    ∧ ("Judgment" ∈ map area milestones
       ↔ hd 0 (Db.sim_run_count counts user_id) < 10).
Proof.
  intros Hq Hp Hr.
  pose proof (BudgetFacts.get_current_streak_nonneg db user_id) as Hs.
  unfold get_next_milestones, get_individual_scores.
  destruct (judgment_score_returns db user_id) as [j ->]. cbn [Py.bind Py.ret].
  set (q := hd 0 (Db.completed_quest_count db user_id)) in *.
  set (s := Budget.get_current_streak db user_id) in *.
  set (p := hd 0 (Db.board_post_count db user_id)) in *.
  set (r := hd 0 (Db.sim_run_count counts user_id)) in *.
  eexists. split; [reflexivity|].
  assert (((q / 5 + 1) * 5 <=? 20) = (q <? 20)) as Hcq.
  { destruct (q <? 20) eqn:E;
      [apply Z.ltb_lt in E; apply Z.leb_le | apply Z.ltb_ge in E; apply Z.leb_gt];
      Z.div_mod_to_equations; lia. }
  assert (((s / 7 + 1) * 7 <=? 30) = (s <? 28)) as Hcs.
  { destruct (s <? 28) eqn:E;
      [apply Z.ltb_lt in E; apply Z.leb_le | apply Z.ltb_ge in E; apply Z.leb_gt];
      Z.div_mod_to_equations; lia. }
  assert (((p / 3 + 1) * 3 <=? 15) = (p <? 15)) as Hcp.
  { destruct (p <? 15) eqn:E;
      [apply Z.ltb_lt in E; apply Z.leb_le | apply Z.ltb_ge in E; apply Z.leb_gt];
      Z.div_mod_to_equations; lia. }
  assert (((r / 2 + 1) * 2 <=? 10) = (r <? 10)) as Hcr.
  { destruct (r <? 10) eqn:E;
      [apply Z.ltb_lt in E; apply Z.leb_le | apply Z.ltb_ge in E; apply Z.leb_gt];
      Z.div_mod_to_equations; lia. }
  rewrite Hcq, Hcs, Hcp, Hcr.
  split; [|split].
  - apply Forall_forall. intros m.
    rewrite !elem_of_append_milestone.
    intros [[[[Hin|[_ ->]]|[_ ->]]|[_ ->]]|[_ ->]]; simpl;
      [by apply elem_of_nil in Hin|Z.div_mod_to_equations; lia..].
  - unfold append_milestone.
    destruct (q <? 20), (s <? 28), (p <? 15), (r <? 10); simpl;
      repeat first [apply sublist_nil | apply sublist_skip | apply sublist_cons].
  - unfold append_milestone.
    destruct (q <? 20) eqn:Eq, (s <? 28) eqn:Es, (p <? 15) eqn:Ep,
      (r <? 10) eqn:Er; simpl;
      repeat match goal with
             | H : (_ <? _) = true |- _ => apply Z.ltb_lt in H
             | H : (_ <? _) = false |- _ => apply Z.ltb_ge in H
             end;
      repeat split; intros; try lia;
      repeat match goal with
             | H : _ ∈ [] |- _ => by apply elem_of_nil in H
             | H : _ ∈ _ :: _ |- _ => apply elem_of_cons in H as [[=]|H]
             | |- ?x ∈ ?x :: _ => apply list_elem_of_here
             | |- _ ∈ _ :: _ => apply list_elem_of_further
             end.
Qed.

Lemma get_next_milestones_ahead_witness :
  ∃ milestones,
    get_next_milestones Db.saver_storage Db.saver_counts "teen" = Py.ret milestones
    ∧ Forall (λ m, current m < target m ≤ current m + 7) milestones.
Proof.
  destruct (get_next_milestones_ahead Db.saver_storage Db.saver_counts "teen")
    as (milestones & Hres & Hahead & _); [simpl; lia..|].
  exists milestones. split; [exact Hres | exact Hahead].
Defined.

End AutonomyFacts.
(* ===================================================================== *)
(** * Properties of the text helpers *)
(* ===================================================================== *)

Module UtilsFacts.
Import Utils.

(** X26: [truncate_text] returns a text that fits unchanged; a longer
    text is cut to a prefix followed by three dots, which has exactly
    [max_length] characters when [max_length] is at least 3 and more
    than [max_length] characters when it is less. *)
Theorem truncate_text_length (t : text) max_length :
  (Z.of_nat (length t) ≤ max_length → truncate_text t max_length = t)
  ∧ (max_length < Z.of_nat (length t) →
     ∃ n, truncate_text t max_length = (take n t ++ dots)%list
          ∧ (3 ≤ max_length →
             Z.of_nat (length (truncate_text t max_length)) = max_length)
          ∧ (max_length < 3 →
             max_length < Z.of_nat (length (truncate_text t max_length)))).
Proof.
  unfold truncate_text. split.
  - intros Hfit. by rewrite (proj2 (Z.leb_le _ _) Hfit).
  - intros Hlong. rewrite (proj2 (Z.leb_gt _ _) Hlong).
    unfold Py.slice_to. destruct (0 <=? max_length - 3) eqn:Hm.
    + apply Z.leb_le in Hm. eexists. split; [reflexivity|].
      rewrite length_app, length_take. simpl. split; lia.
    + apply Z.leb_gt in Hm. eexists. split; [reflexivity|].
      rewrite length_app, length_take. simpl. split; lia.
Qed.

Lemma filter_all {A} (P : A → Prop) `{!∀ x, Decision (P x)} (l : list A) :
  Forall P l → filter P l = l.
Proof.
  induction 1 as [|x l Hx _ IH]; [done|].
  by rewrite filter_cons, decide_True, IH.
Qed.

Section strip.
Variable isspace : N → bool.

Lemma lstrip_suffix t : ∃ n, lstrip isspace t = drop n t.
Proof.
  induction t as [|c t [n IH]]; [by exists 0%nat|]. simpl.
  destruct (isspace c); [by exists (S n) | by exists 0%nat].
Qed.

Lemma lstrip_head t c : head (lstrip isspace t) = Some c → isspace c = false.
Proof.
  induction t as [|d t IH]; [done|]. simpl.
  destruct (isspace d) eqn:Hd; [done|]. by intros [= <-].
Qed.

Lemma lstrip_fixed t :
  (∀ c, head t = Some c → isspace c = false) → lstrip isspace t = t.
Proof. destruct t as [|c t]; [done|]. simpl. intros H. by rewrite H. Qed.

Lemma lstrip_idempotent t : lstrip isspace (lstrip isspace t) = lstrip isspace t.
Proof. apply lstrip_fixed. apply lstrip_head. Qed.

Lemma rstrip_prefix t : ∃ n, rstrip isspace t = take n t.
Proof.
  unfold rstrip. destruct (lstrip_suffix (reverse t)) as [n ->].
  exists (length t - n)%nat.
  by rewrite reverse_drop, length_reverse, reverse_involutive.
Qed.

Lemma rstrip_idempotent t : rstrip isspace (rstrip isspace t) = rstrip isspace t.
Proof.
  unfold rstrip. by rewrite reverse_involutive, lstrip_idempotent.
Qed.

Lemma rstrip_last t c : last (rstrip isspace t) = Some c → isspace c = false.
Proof.
  unfold rstrip. rewrite last_reverse. apply lstrip_head.
Qed.

(** Stripping on the right keeps a first character that is no space. *)
Lemma rstrip_head t c :
  (∀ d, head t = Some d → isspace d = false) →
  head (rstrip isspace t) = Some c → isspace c = false.
Proof.
  intros Ht. destruct (rstrip_prefix t) as [n ->].
  destruct t as [|d t]; [by destruct n|].
  destruct n; [done|]. simpl. intros [= <-]. by apply Ht.
Qed.

Lemma strip_idempotent t : strip isspace (strip isspace t) = strip isspace t.
Proof.
  unfold strip.
  rewrite (lstrip_fixed (rstrip isspace (lstrip isspace t))).
  - apply rstrip_idempotent.
  - intros c. apply rstrip_head. apply lstrip_head.
Qed.

Lemma strip_sublist t : sublist (strip isspace t) t.
Proof.
  unfold strip. destruct (rstrip_prefix (lstrip isspace t)) as [n ->].
  destruct (lstrip_suffix t) as [m ->].
  etrans; [apply sublist_take | apply sublist_drop].
Qed.

Lemma filter_remove_char (chars : list N) a t :
  filter (λ c, c ∉ chars) (remove_char a t) = filter (λ c, c ∉ a :: chars) t.
Proof.
  unfold remove_char. induction t as [|c t IH]; [done|].
  rewrite !filter_cons. destruct (decide (c ≠ a)) as [Hne|Heq].
  - rewrite filter_cons. destruct (decide (c ∉ chars)) as [Hc|Hc].
    + rewrite decide_True by (by rewrite not_elem_of_cons). by rewrite IH.
    + rewrite decide_False; [done|]. rewrite not_elem_of_cons. tauto.
  - rewrite decide_False; [done|]. rewrite not_elem_of_cons. tauto.
Qed.

Lemma remove_chars (chars : list N) t :
  foldl (λ t char, remove_char char t) t chars = filter (λ c, c ∉ chars) t.
Proof.
  revert t. induction chars as [|a chars IH]; intros t; cbn [foldl].
  - symmetry. apply filter_all. apply Forall_forall. intros c _.
    apply not_elem_of_nil.
  - rewrite IH. apply filter_remove_char.
Qed.

Lemma remove_dangerous t :
  foldl (λ t char, remove_char char t) t dangerous_chars
  = filter (λ c, c ∉ dangerous_chars) t.
Proof. apply remove_chars. Qed.

(** X27: the result of [sanitize_input] holds none of the dangerous
    characters, neither starts nor ends with a space character, and is
    left unchanged by a second [sanitize_input]. *)
Theorem sanitize_input_clean (t : text) :
  Forall (λ c, c ∉ dangerous_chars) (sanitize_input isspace t)
  ∧ (∀ c, head (sanitize_input isspace t) = Some c → isspace c = false)
  ∧ (∀ c, last (sanitize_input isspace t) = Some c → isspace c = false)
  ∧ sanitize_input isspace (sanitize_input isspace t) = sanitize_input isspace t.
Proof.
  assert (Forall (λ c, c ∉ dangerous_chars) (sanitize_input isspace t)) as Hclean.
  { unfold sanitize_input. destruct t as [|c t]; [constructor|].
    rewrite remove_dangerous.
    apply Forall_forall. intros x Hx.
    eapply elem_of_sublist in Hx; [|apply strip_sublist].
    by apply list_elem_of_filter in Hx as [? _]. }
  split; [done|]. split; [|split].
  - unfold sanitize_input. destruct t as [|d t]; [done|].
    intros c. apply rstrip_head. apply lstrip_head.
  - unfold sanitize_input. destruct t as [|d t]; [done|].
    intros c. apply rstrip_last.
  - unfold sanitize_input at 1.
    destruct (sanitize_input isspace t) as [|c r] eqn:Hr; [done|].
    rewrite remove_dangerous.
    rewrite filter_all by done.
    rewrite <- Hr. unfold sanitize_input. destruct t as [|d t]; [done|].
    apply strip_idempotent.
Qed.

End strip.

End UtilsFacts.
(* ===================================================================== *)
(** * Properties of the quest progress *)
(* ===================================================================== *)

Module QuestsFacts.
Import Quests.

Lemma select_progress_app tables rows user_id id :
  select_progress {| quest := quest tables;
                     quest_progress := (quest_progress tables ++ rows)%list |}
                  user_id id
  = (select_progress tables user_id id
     ++ filter (λ p, progress_user p = user_id ∧ progress_quest p = id) rows)%list.
Proof. unfold select_progress. simpl. apply filter_app. Qed.

Lemma set_completed_key user_id id now p :
  progress_user (set_completed user_id id now p) = progress_user p
  ∧ progress_quest (set_completed user_id id now p) = progress_quest p.
Proof. unfold set_completed. by case_bool_decide. Qed.

Lemma select_progress_map tables user_id id now user_id' id' :
  select_progress {| quest := quest tables;
                     quest_progress :=
                       map (set_completed user_id id now) (quest_progress tables) |}
                  user_id' id'
  = map (set_completed user_id id now) (select_progress tables user_id' id').
Proof.
  unfold select_progress. simpl.
  induction (quest_progress tables) as [|p rows IH]; [done|].
  cbn [map]. rewrite !filter_cons.
  destruct (set_completed_key user_id id now p) as [-> ->].
  destruct (decide _); [|done]. cbn [map]. by rewrite IH.
Qed.

Lemma set_completed_other user_id id now user_id' id' rows :
  (user_id', id') ≠ (user_id, id) →
  Forall (λ p, progress_user p = user_id' ∧ progress_quest p = id') rows →
  map (set_completed user_id id now) rows = rows.
Proof.
  intros Hne Hall. induction Hall as [|p rows [Hu Hq] _ IH]; [done|].
  cbn [map]. rewrite IH. f_equal. unfold set_completed.
  rewrite bool_decide_eq_false_2; [done|]. intros [Hu' Hq']. congruence.
Qed.

Lemma select_progress_keys tables user_id id :
  Forall (λ p, progress_user p = user_id ∧ progress_quest p = id)
         (select_progress tables user_id id).
Proof.
  unfold select_progress. apply Forall_forall. intros p Hp.
  by apply list_elem_of_filter in Hp as [? _].
Qed.

Lemma set_completed_same user_id id now p :
  progress_user p = user_id → progress_quest p = id →
  completed_at (set_completed user_id id now p) = Some now.
Proof.
  intros Hu Hq. unfold set_completed. by rewrite bool_decide_eq_true_2.
Qed.

(** X28: what [start_quest] and [complete_quest] return, and that a
    refused call changes nothing: a quest starts exactly when it exists
    and the user has no progress row for it, and completes exactly when
    the user has started it and not completed it. *)
Theorem quest_calls_accepted tables user_id id new_id now :
  ((start_quest tables user_id id new_id now).1 = true
   ↔ select_quest tables id ≠ [] ∧ is_quest_started tables user_id id = false)
  ∧ ((start_quest tables user_id id new_id now).1 = false
     → (start_quest tables user_id id new_id now).2 = tables)
  ∧ ((complete_quest tables user_id id now).1 = true
     ↔ is_quest_started tables user_id id = true
       ∧ is_quest_completed tables user_id id = false)
  ∧ ((complete_quest tables user_id id now).1 = false
     → (complete_quest tables user_id id now).2 = tables).
Proof.
  unfold start_quest, complete_quest, get_quest_by_id, is_quest_started,
    is_quest_completed.
  destruct (select_quest tables id) as [|q qs];
    destruct (select_progress tables user_id id) as [|p ps]; simpl;
    try destruct (truthy (completed_at p)); simpl;
    repeat split; try done; try (intros [? ?]; done); by intros [].
Qed.

(** X29: a quest that exists and that the user has not started can be
    started and then completed; it then counts as completed, its id is
    among the completed ids that the recommendations read, and it can
    be neither started nor completed again. *)
Theorem quest_lifecycle tables user_id id new_id started finished :
  select_quest tables id ≠ [] →
  is_quest_started tables user_id id = false →
  finished ≠ "" →
  ∃ t1 t2,
    start_quest tables user_id id new_id started = (true, t1)
    ∧ is_quest_started t1 user_id id = true
    ∧ is_quest_completed t1 user_id id = false
    ∧ complete_quest t1 user_id id finished = (true, t2)
    ∧ is_quest_completed t2 user_id id = true
    ∧ id ∈ completed_quest_ids t2 user_id
    ∧ (∀ new_id' now', start_quest t2 user_id id new_id' now' = (false, t2))
    ∧ (∀ now', complete_quest t2 user_id id now' = (false, t2)).
Proof.
  intros Hquest Hnot Hfin.
  unfold is_quest_started in Hnot.
  destruct (select_progress tables user_id id) as [|p0 ps0] eqn:Hsel; [|done].
  destruct (select_quest tables id) as [|q qs] eqn:Hq; [done|].
  set (row := {| progress_id := new_id; progress_user := user_id;
                 progress_quest := id; started_at := Some started;
                 completed_at := None |}).
  set (t1 := {| quest := quest tables;
                quest_progress := (quest_progress tables ++ [row])%list |}).
  set (t2 := {| quest := quest tables;
                quest_progress :=
                  map (set_completed user_id id finished) (quest_progress t1) |}).
  assert (select_progress t1 user_id id = [row]) as Hsel1.
  { unfold t1. rewrite select_progress_app, Hsel. simpl.
    rewrite filter_cons, decide_True by done. done. }
  assert (select_progress t2 user_id id
          = [set_completed user_id id finished row]) as Hsel2.
  { unfold t2. rewrite (select_progress_map t1). by rewrite Hsel1. }
  assert (completed_at (set_completed user_id id finished row) = Some finished)
    as Hdone by (by apply set_completed_same).
  assert (truthy (Some finished) = true) as Htruthy.
  { simpl. by rewrite bool_decide_eq_false_2. }
  assert (select_quest t2 id = q :: qs) as Hq2 by done.
  exists t1, t2. split; [|split; [|split; [|split; [|split; [|split; [|split]]]]]].
  - unfold start_quest, get_quest_by_id. by rewrite Hq, Hsel.
  - unfold is_quest_started. by rewrite Hsel1.
  - unfold is_quest_completed. by rewrite Hsel1.
  - unfold complete_quest. by rewrite Hsel1.
  - unfold is_quest_completed. by rewrite Hsel2, Hdone.
  - unfold completed_quest_ids. apply list_elem_of_In, in_flat_map.
    exists (set_completed user_id id finished row). split.
    + apply list_elem_of_In, list_elem_of_filter. split.
      * split; [apply set_completed_key | by rewrite Hdone].
      * assert (set_completed user_id id finished row
                ∈ select_progress t2 user_id id) as Hin.
        { rewrite Hsel2. apply list_elem_of_here. }
        unfold select_progress in Hin.
        by apply list_elem_of_filter in Hin as [_ ?].
    + destruct (set_completed_key user_id id finished row) as [_ ->].
      change (progress_quest row) with id.
      apply list_elem_of_In. rewrite Hq2. cbn [map].
      replace id with (quest_id q) at 1; [apply list_elem_of_here|].
      assert (q ∈ select_quest tables id) as Hin
        by (rewrite Hq; apply list_elem_of_here).
      unfold select_quest in Hin.
      by apply list_elem_of_filter in Hin as [? _].
  - intros new_id' now'. unfold start_quest, get_quest_by_id.
    by rewrite Hq2, Hsel2.
  - intros now'. unfold complete_quest. by rewrite Hsel2, Hdone, Htruthy.
Qed.

Lemma quest_lifecycle_witness :
  ∃ t1 t2,
    start_quest seeded "teen" "quest_meal_prep" "id-1" "2025-01-01T10:00:00"
    = (true, t1)
    ∧ complete_quest t1 "teen" "quest_meal_prep" "2025-01-01T11:00:00" = (true, t2)
    ∧ is_quest_completed t2 "teen" "quest_meal_prep" = true.
Proof.
  destruct (quest_lifecycle seeded "teen" "quest_meal_prep" "id-1"
              "2025-01-01T10:00:00" "2025-01-01T11:00:00")
    as (t1 & t2 & Hstart & _ & _ & Hcomplete & Hdone & _).
  - vm_compute. discriminate.
  - reflexivity.
  - discriminate.
  - exists t1, t2. split; [exact Hstart|]. split; [exact Hcomplete | exact Hdone].
Defined.

(** X30: starting or completing a quest for a user changes neither
    whether another pair of user and quest is started nor whether it is
    completed. *)
Theorem quest_calls_frame tables user_id id new_id now user_id' id' :
  (user_id', id') ≠ (user_id, id) →
  is_quest_started (start_quest tables user_id id new_id now).2 user_id' id'
  = is_quest_started tables user_id' id'
  ∧ is_quest_completed (start_quest tables user_id id new_id now).2 user_id' id'
    = is_quest_completed tables user_id' id'
  ∧ is_quest_started (complete_quest tables user_id id now).2 user_id' id'
    = is_quest_started tables user_id' id'
  ∧ is_quest_completed (complete_quest tables user_id id now).2 user_id' id'
    = is_quest_completed tables user_id' id'.
Proof.
  intros Hne.
  assert (select_progress (start_quest tables user_id id new_id now).2 user_id' id'
          = select_progress tables user_id' id') as Hstart.
  { unfold start_quest. destruct (get_quest_by_id tables id); [|done].
    destruct (select_progress tables user_id id); [|done].
    cbn [snd]. rewrite select_progress_app. simpl.
    rewrite filter_cons, decide_False, filter_nil, app_nil_r; [done|].
    simpl. intros [-> ->]. done. }
  assert (select_progress (complete_quest tables user_id id now).2 user_id' id'
          = select_progress tables user_id' id') as Hcomplete.
  { unfold complete_quest. destruct (select_progress tables user_id id) as [|p ps];
      [done|].
    destruct (truthy (completed_at p)); [done|].
    cbn [snd]. rewrite select_progress_map.
    apply (set_completed_other _ _ _ user_id' id'); [done|].
    apply select_progress_keys. }
  unfold is_quest_started, is_quest_completed. by rewrite Hstart, Hcomplete.
Qed.

Lemma quest_calls_frame_witness :
  is_quest_started
    (start_quest seeded "teen" "quest_meal_prep" "id-1" "2025-01-01T10:00:00").2
    "teen" "quest_laundry"
  = is_quest_started seeded "teen" "quest_laundry".
Proof.
  apply (quest_calls_frame seeded "teen" "quest_meal_prep" "id-1"
           "2025-01-01T10:00:00" "teen" "quest_laundry").
  discriminate.
Defined.

End QuestsFacts.
